(** * LearnHub progress tracking: the course-detail toggle and the auth form

  A shallow embedding of the parts of the LearnHub client that decide the
  completion-tracking contract:

  - [Schema]: the [user_courses] / [courses] tables of the SQL migration,
    with the primary key, the UNIQUE(user_id, course_id) constraint, the
    foreign key to [courses] and the three row-level-security policies;
  - [Js]: a small state / exception / trace monad for the async handlers
    ([try] / [catch] / [finally], [throw], component state, emitted effects);
  - [CourseDetail]: the [fetchData] effect and [handleToggleComplete];
  - [Auth]: [validateInputs], [handleSignUp], [handleLogin].

  JavaScript strings are modelled as [string], one character per code
  unit; timestamps are the ISO strings the code stores. *)

From Stdlib Require Import String Ascii List Bool Arith Lia ZArith.
Import ListNotations.
Local Open Scope string_scope.
Local Open Scope list_scope.

Set Implicit Arguments.

(* ===================================================================== *)
(** ** Rows of the two tables *)

Module Course.
Record t := mk {
  id : string;
  title : string;
  description : string;
  thumbnail : option string;
  duration : Z;
  created_at : string
}.
End Course.

Module UserCourse.
Record t := mk {
  id : string;
  user_id : string;
  course_id : string;
  completed : bool;
  completed_at : option string;
  created_at : string
}.

(** The SET clause of the UPDATE issued by the client, and the object
    spread [{...userCourse, completed, completed_at}]. *)
Definition set_completion (c : bool) (at_ : option string) (r : t) : t :=
  mk (id r) (user_id r) (course_id r) c at_ (created_at r).
End UserCourse.

Module User.
Record t := mk { id : string; email : string }.
End User.

(* ===================================================================== *)
(** ** The store: tables, constraints and policies of the migration *)

Module Schema.

Record Db := mkDb {
  courses : list Course.t;
  user_courses : list UserCourse.t
}.

Definition set_user_courses (rows : list UserCourse.t) (d : Db) : Db :=
  mkDb (courses d) rows.

(** Errors a request can come back with.  [Conflict] is Postgres'
    unique_violation and carries the violated constraint; [Forbidden] is a
    row-level-security rejection; [NotFound] is what [.single()] reports
    for an empty result; [StoreUnavailable] is a transport failure. *)
Inductive StoreError :=
| StoreUnavailable
| Forbidden
| Conflict (constraint : string)
| ForeignKeyViolation
| NotFound
| MultipleRows.

(** The text of [error.message]; constraint and table names are quoted. *)
Definition quoted (s : string) : string :=
  String (ascii_of_nat 34) s ++ String (ascii_of_nat 34) EmptyString.

Definition message (e : StoreError) : string :=
  match e with
  | StoreUnavailable => "TypeError: Failed to fetch"
  | Forbidden =>
      "new row violates row-level security policy for table " ++ quoted "user_courses"
  | Conflict c => "duplicate key value violates unique constraint " ++ quoted c
  | ForeignKeyViolation =>
      "insert or update on table " ++ quoted "user_courses"
      ++ " violates foreign key constraint " ++ quoted "user_courses_course_id_fkey"
  | NotFound => "JSON object requested, multiple (or no) rows returned"
  | MultipleRows => "JSON object requested, multiple (or no) rows returned"
  end.

(** [auth.uid() = user_id]: the USING / WITH CHECK predicate shared by the
    three policies on [user_courses].  An anonymous request has a NULL
    [auth.uid()], for which the comparison is not true. *)
Definition owns (auth_uid : option string) (r : UserCourse.t) : bool :=
  match auth_uid with
  | Some u => u =? UserCourse.user_id r
  | None => false
  end.

Definition same_pair (user_id course_id : string) (r : UserCourse.t) : bool :=
  (UserCourse.user_id r =? user_id) && (UserCourse.course_id r =? course_id).

(** SELECT * FROM courses WHERE id = $1   (policy: USING (true)) *)
Definition select_course (cid : string) (d : Db) : list Course.t :=
  filter (fun c => Course.id c =? cid) (courses d).

(** SELECT * FROM user_courses WHERE user_id = $1 AND course_id = $2,
    restricted to the rows the SELECT policy lets the caller see. *)
Definition select_user_course (auth_uid : option string)
    (user_id course_id : string) (d : Db) : list UserCourse.t :=
  filter (fun r => owns auth_uid r && same_pair user_id course_id r)
         (user_courses d).

(** UPDATE user_courses SET completed = $1, completed_at = $2 WHERE id = $3.
    Rows the UPDATE policy hides are skipped silently; a statement that
    matches no row is not an error. *)
Definition rewrite_row (auth_uid : option string) (c : bool) (at_ : option string)
    (rid : string) (r : UserCourse.t) : UserCourse.t :=
  if (UserCourse.id r =? rid) && owns auth_uid r
  then UserCourse.set_completion c at_ r else r.

Definition update_user_course (auth_uid : option string)
    (c : bool) (at_ : option string) (rid : string) (d : Db) : Db :=
  set_user_courses (map (rewrite_row auth_uid c at_ rid) (user_courses d)) d.

(** INSERT INTO user_courses (user_id, course_id, completed, completed_at)
    VALUES (...) RETURNING *.  [uuid] and [now] are the column defaults
    gen_random_uuid() and now().  Checks in the order Postgres applies
    them: WITH CHECK policy, primary key, UNIQUE(user_id, course_id),
    foreign key to courses.  (The foreign key to auth.users cannot fail
    once the policy passed: the policy forces user_id = auth.uid(), which
    names a row of auth.users.) *)
Definition insert_user_course (auth_uid : option string) (uuid now : string)
    (user_id course_id : string) (c : bool) (at_ : option string) (d : Db)
    : StoreError + (UserCourse.t * Db) :=
  let new := UserCourse.mk uuid user_id course_id c at_ now in
  if negb (owns auth_uid new) then inl Forbidden
  else if existsb (fun r => UserCourse.id r =? uuid) (user_courses d)
    then inl (Conflict "user_courses_pkey")
  else if existsb (same_pair user_id course_id) (user_courses d)
    then inl (Conflict "user_courses_user_id_course_id_key")
  else if negb (existsb (fun k => Course.id k =? course_id) (courses d))
    then inl ForeignKeyViolation
  else inr (new, set_user_courses (user_courses d ++ [new]) d).

(** *** Integrity predicates, as executable checks *)

(** UNIQUE(user_id, course_id) *)
Fixpoint unique_user_course (rows : list UserCourse.t) : bool :=
  match rows with
  | [] => true
  | r :: rows' =>
      negb (existsb (same_pair (UserCourse.user_id r) (UserCourse.course_id r)) rows')
      && unique_user_course rows'
  end.

(** completed = true exactly when completed_at is set *)
Definition completion_consistent (r : UserCourse.t) : bool :=
  Bool.eqb (UserCourse.completed r)
           (match UserCourse.completed_at r with Some _ => true | None => false end).

End Schema.

(* ===================================================================== *)
(** ** A monad for the async handlers

  A handler transforms a state, may throw, and emits observable effects in
  order.  Unlike a state transformer stacked on an error monad, state
  written before a [throw] survives into [catch] and [finally], as in
  JavaScript. *)

Module Js.
Section Monad.
Variables (St Exn Ev : Type).

Definition M (A : Type) : Type := St -> (Exn + A) * St * list Ev.

Definition ret {A} (a : A) : M A := fun s => (inr a, s, []).

Definition bind {A B} (m : M A) (k : A -> M B) : M B :=
  fun s =>
    match m s with
    | (inl e, s1, l1) => (inl e, s1, l1)
    | (inr a, s1, l1) =>
        match k a s1 with
        | (r, s2, l2) => (r, s2, l1 ++ l2)
        end
    end.

Definition throw {A} (e : Exn) : M A := fun s => (inl e, s, []).

Definition emit (ev : Ev) : M unit := fun s => (inr tt, s, [ev]).

Definition gets {A} (f : St -> A) : M A := fun s => (inr (f s), s, []).

Definition modify (f : St -> St) : M unit := fun s => (inr tt, f s, []).

(** try { body } catch (error) { handler error } finally { fin } *)
Definition try_catch_finally {A} (body : M A) (handler : Exn -> M A)
    (fin : M unit) : M A :=
  fun s =>
    match body s with
    | (r1, s1, l1) =>
        match (match r1 with
               | inr a => (inr a, s1, [])
               | inl e => handler e s1
               end) with
        | (r2, s2, l2) =>
            match fin s2 with
            | (inl e, s3, l3) => (inl e, s3, l1 ++ l2 ++ l3)
            | (inr _, s3, l3) => (r2, s3, l1 ++ l2 ++ l3)
            end
        end
    end.

(** try { body } catch (error) { handler error } *)
Definition try_catch {A} (body : M A) (handler : Exn -> M A) : M A :=
  try_catch_finally body handler (ret tt).

Definition result {A} (x : (Exn + A) * St * list Ev) : Exn + A := fst (fst x).
Definition state {A} (x : (Exn + A) * St * list Ev) : St := snd (fst x).
Definition trace {A} (x : (Exn + A) * St * list Ev) : list Ev := snd x.
End Monad.

Arguments ret {St Exn Ev A} a.
Arguments bind {St Exn Ev A B} m k.
Arguments throw {St Exn Ev A} e.
Arguments emit {St Exn Ev} ev.
Arguments gets {St Exn Ev A} f.
Arguments modify {St Exn Ev} f.
Arguments try_catch_finally {St Exn Ev A} body handler fin.
Arguments try_catch {St Exn Ev A} body handler.
Arguments result {St Exn Ev A} x.
Arguments state {St Exn Ev A} x.
Arguments trace {St Exn Ev A} x.
End Js.

Declare Scope js_scope.
Delimit Scope js_scope with js.
Notation "x <- m ;; k" := (Js.bind m (fun x => k))
(at level 61, m at next level, right associativity) : js_scope.
Notation "m ;; k" := (Js.bind m (fun _ => k))
(at level 61, right associativity) : js_scope.
Notation "' pat <- m ;; k" :=
  (Js.bind m (fun x => match x with pat => k end))
  (at level 61, pat pattern, m at next level, right associativity) : js_scope.

(* ===================================================================== *)
(** ** The course-detail page *)

Module CourseDetail.
Import Schema.
Local Open Scope js_scope.

(** What the page can do that is visible from outside: toasts, route
    changes, and the requests sent to the store with the error each came
    back with. *)
Inductive Query :=
| GetUser
| SelectCourse (id : string)
| SelectUserCourse (user_id course_id : string)
| Update (completed : bool) (completed_at : option string) (id : string)
| Insert (user_id course_id : string) (completed : bool) (completed_at : option string).

Inductive Event :=
| Toast (title description : string) (variant : option string)
| Navigate (path : string)
| StoreCall (q : Query) (error : option StoreError).

(** The backend as this browser session sees it ([db], [session]), the
    route parameter, and the five [useState] cells of the component. *)
Record World := mkWorld {
  db : Db;
  session : option User.t;
  param_id : string;
  course : option Course.t;
  user : option User.t;
  userCourse : option UserCourse.t;
  loading : bool;
  updating : bool
}.

Definition set_db (d : Db) (w : World) : World :=
  mkWorld d (session w) (param_id w) (course w) (user w) (userCourse w) (loading w) (updating w).
Definition set_session (s : option User.t) (w : World) : World :=
  mkWorld (db w) s (param_id w) (course w) (user w) (userCourse w) (loading w) (updating w).
Definition set_course (c : option Course.t) (w : World) : World :=
  mkWorld (db w) (session w) (param_id w) c (user w) (userCourse w) (loading w) (updating w).
Definition set_user (u : option User.t) (w : World) : World :=
  mkWorld (db w) (session w) (param_id w) (course w) u (userCourse w) (loading w) (updating w).
Definition set_userCourse (r : option UserCourse.t) (w : World) : World :=
  mkWorld (db w) (session w) (param_id w) (course w) (user w) r (loading w) (updating w).
Definition set_loading (b : bool) (w : World) : World :=
  mkWorld (db w) (session w) (param_id w) (course w) (user w) (userCourse w) b (updating w).
Definition set_updating (b : bool) (w : World) : World :=
  mkWorld (db w) (session w) (param_id w) (course w) (user w) (userCourse w) (loading w) b.

Definition M := Js.M World StoreError Event.

Definition setCourse (c : option Course.t) : M unit := Js.modify (set_course c).
Definition setUser (u : option User.t) : M unit := Js.modify (set_user u).
Definition setUserCourse (r : option UserCourse.t) : M unit :=
  Js.modify (set_userCourse r).
Definition setLoading (b : bool) : M unit := Js.modify (set_loading b).
Definition setUpdating (b : bool) : M unit := Js.modify (set_updating b).

Definition toast (title description : string) (variant : option string) : M unit :=
  Js.emit (Toast title description variant).
Definition navigate (path : string) : M unit := Js.emit (Navigate path).

(** auth.uid() of the requests this session sends *)
Definition auth_uid (w : World) : option string := option_map User.id (session w).

(** *** The supabase client calls the page makes

    Each takes [net], whether the request reaches the backend; a request
    that does not is answered with [StoreUnavailable] and changes nothing. *)

(** supabase.auth.getUser(): { data: { user } } *)
Definition supabase_getUser (net : bool) : M (option User.t) :=
  fun w =>
    if net then (inr (session w), w, [StoreCall GetUser None])
    else (inr None, w, [StoreCall GetUser (Some StoreUnavailable)]).

(** supabase.from("courses").select("*").eq("id", id).single() *)
Definition supabase_select_course_single (net : bool) (id : string)
    : M (option Course.t * option StoreError) :=
  fun w =>
    let q := SelectCourse id in
    if net then
      match select_course id (db w) with
      | [c] => (inr (Some c, None), w, [StoreCall q None])
      | [] => (inr (None, Some NotFound), w, [StoreCall q (Some NotFound)])
      | _ => (inr (None, Some MultipleRows), w, [StoreCall q (Some MultipleRows)])
      end
    else (inr (None, Some StoreUnavailable), w, [StoreCall q (Some StoreUnavailable)]).

(** supabase.from("user_courses").select("*").eq("user_id", u)
      .eq("course_id", id).maybeSingle() *)
Definition supabase_select_user_course_maybeSingle (net : bool)
    (user_id course_id : string) : M (option UserCourse.t * option StoreError) :=
  fun w =>
    let q := SelectUserCourse user_id course_id in
    if net then
      match select_user_course (auth_uid w) user_id course_id (db w) with
      | [] => (inr (None, None), w, [StoreCall q None])
      | [r] => (inr (Some r, None), w, [StoreCall q None])
      | _ => (inr (None, Some MultipleRows), w, [StoreCall q (Some MultipleRows)])
      end
    else (inr (None, Some StoreUnavailable), w, [StoreCall q (Some StoreUnavailable)]).

(** supabase.from("user_courses").update({completed, completed_at}).eq("id", id):
    { error } *)
Definition supabase_update (net : bool) (completed : bool)
    (completed_at : option string) (id : string) : M (option StoreError) :=
  fun w =>
    let q := Update completed completed_at id in
    if net then
      (inr None,
       set_db (update_user_course (auth_uid w) completed completed_at id (db w)) w,
       [StoreCall q None])
    else (inr (Some StoreUnavailable), w, [StoreCall q (Some StoreUnavailable)]).

(** supabase.from("user_courses").insert({...}).select().single():
    { data, error } *)
Definition supabase_insert (net : bool) (uuid now : string)
    (user_id course_id : string) (completed : bool) (completed_at : option string)
    : M (option UserCourse.t * option StoreError) :=
  fun w =>
    let q := Insert user_id course_id completed completed_at in
    if net then
      match insert_user_course (auth_uid w) uuid now user_id course_id
                               completed completed_at (db w) with
      | inr (row, d) => (inr (Some row, None), set_db d w, [StoreCall q None])
      | inl err => (inr (None, Some err), w, [StoreCall q (Some err)])
      end
    else (inr (None, Some StoreUnavailable), w, [StoreCall q (Some StoreUnavailable)]).

(** *** What one run of a handler takes from outside *)

(** [fetchData]: the fate of its three requests. *)
Record FetchEnv := mkFetchEnv {
  net_user : bool;
  net_course : bool;
  net_progress : bool
}.

(** [handleToggleComplete]: the fate of its one request; the two readings
    of [new Date().toISOString()] (request payload, then local state); and
    the values the column defaults produce if a row is inserted. *)
Record ToggleEnv := mkToggleEnv {
  net_ok : bool;
  now : string;
  now' : string;
  uuid : string;
  db_now : string
}.

(** *** The mount effect *)

Definition fetchData (e : FetchEnv) : M unit :=
  Js.try_catch_finally
    (currentUser <- supabase_getUser (net_user e) ;;
     setUser currentUser ;;
     id <- Js.gets param_id ;;
     '(courseData, courseError) <- supabase_select_course_single (net_course e) id ;;
     match courseError with
     | Some err => Js.throw err
     | None =>
         setCourse courseData ;;
         match currentUser with
         | Some cu =>
             '(userCourseData, _) <-
               supabase_select_user_course_maybeSingle (net_progress e) (User.id cu) id ;;
             setUserCourse userCourseData
         | None => Js.ret tt
         end
     end)
    (fun error =>
       toast "Error" (message error) (Some "destructive") ;;
       navigate "/")
    (setLoading false).

(** supabase.auth.onAuthStateChange((event, session) => setUser(session?.user ?? null)),
    run when the identity provider moves the session to [s]. *)
Definition onAuthStateChange (s : option User.t) : M unit :=
  Js.modify (set_session s) ;;
  setUser s.

(** *** The toggle *)

Definition handleToggleComplete (e : ToggleEnv) : M unit :=
  (* the values the handler's closure captured at the last render *)
  user <- Js.gets user ;;
  userCourse <- Js.gets userCourse ;;
  id <- Js.gets param_id ;;
  match user with
  | None =>
      toast "Authentication required" "Please log in to track your progress" None ;;
      navigate "/auth"
  | Some user =>
      setUpdating true ;;
      Js.try_catch_finally
        (match userCourse with
         | Some uc =>
             let c := negb (UserCourse.completed uc) in
             error <- supabase_update (net_ok e) c
                        (if c then Some (now e) else None) (UserCourse.id uc) ;;
             match error with
             | Some err => Js.throw err
             | None =>
                 setUserCourse
                   (Some (UserCourse.set_completion c
                            (if c then Some (now' e) else None) uc))
             end
         | None =>
             '(data, error) <- supabase_insert (net_ok e) (uuid e) (db_now e)
                                 (User.id user) id true (Some (now e)) ;;
             match error with
             | Some err => Js.throw err
             | None => setUserCourse data
             end
         end ;;
         let was_completed :=
           match userCourse with
           | Some uc => UserCourse.completed uc
           | None => false
           end in
         toast (if was_completed then "Marked as incomplete" else "Congratulations!")
               (if was_completed then "Course progress updated"
                else "You've completed this course!")
               (Some "default"))
        (fun error => toast "Error" (message error) (Some "destructive"))
        (setUpdating false)
  end.

(** *** Observations on a run *)

Definition store_calls (evs : list Event) : list (Query * option StoreError) :=
  flat_map (fun ev => match ev with StoreCall q err => [(q, err)] | _ => [] end) evs.

Definition is_write (q : Query) : bool :=
  match q with
  | Update _ _ _ | Insert _ _ _ _ => true
  | _ => false
  end.

(** The create / update requests of a run, and those the store accepted. *)
Definition writes (evs : list Event) : list (Query * option StoreError) :=
  filter (fun c => is_write (fst c)) (store_calls evs).
Definition reads (evs : list Event) : list (Query * option StoreError) :=
  filter (fun c => negb (is_write (fst c))) (store_calls evs).
Definition write_failed (evs : list Event) : bool :=
  existsb (fun c => match snd c with Some _ => true | None => false end) (writes evs).

(** The run reached the success toast. *)
Definition toggled (evs : list Event) : bool :=
  existsb (fun ev => match ev with
                     | Toast t _ _ => (t =? "Congratulations!") || (t =? "Marked as incomplete")
                     | _ => false
                     end) evs.

(** The two toasts that end a run past the sign-in check: the success
    toast of a run that started from the local record [v], and the error
    toast. *)
Definition success_toast (v : option UserCourse.t) : Event :=
  let was := match v with Some r => UserCourse.completed r | None => false end in
  Toast (if was then "Marked as incomplete" else "Congratulations!")
        (if was then "Course progress updated" else "You've completed this course!")
        (Some "default").

Definition error_toast (err : StoreError) : Event :=
  Toast "Error" (message err) (Some "destructive").

(** The pair a write request carries is consistent. *)
Definition write_consistent (q : Query) : bool :=
  match q with
  | Update c at_ _ | Insert _ _ c at_ =>
      Bool.eqb c (match at_ with Some _ => true | None => false end)
  | _ => true
  end.

Definition view_consistent (v : option UserCourse.t) : bool :=
  match v with
  | Some r => completion_consistent r
  | None => true
  end.

(** The record of a (principal, course) pair as its owner reads it, and the
    three states of the progress state machine read off it. *)
Definition getRecord (principal course_id : string) (d : Db) : list UserCourse.t :=
  select_user_course (Some principal) principal course_id d.

Inductive ProgressState := NOT_STARTED | IN_PROGRESS | COMPLETED.

Definition progress_state (principal course_id : string) (d : Db) : ProgressState :=
  match getRecord principal course_id d with
  | [] => NOT_STARTED
  | r :: _ => if UserCourse.completed r then COMPLETED else IN_PROGRESS
  end.

(** The page of user [u] is in step with the store on the course it shows:
    it holds a local record, the store holds exactly one record for the
    pair, they are the same row, and both say [completed = b]. *)
Definition tracks (u : User.t) (b : bool) (w : World) : Prop :=
  user w = Some u /\ session w = Some u /\
  exists r s,
    userCourse w = Some r
    /\ getRecord (User.id u) (param_id w) (db w) = [s]
    /\ UserCourse.id r = UserCourse.id s
    /\ UserCourse.completed r = b
    /\ UserCourse.completed s = b.

(** *** Sequences of operations, as one page lives through them

    Besides its own mount, toggles and auth changes, a page is exposed to
    the toggles made on other pages (other tabs or devices, of the same or
    of another principal): [Elsewhere page e] is a toggle run on a page in
    state [page] against the shared store; only its effect on the store
    reaches this page. *)

Inductive Op :=
| Mount (e : FetchEnv)
| Toggle (e : ToggleEnv)
| AuthChange (s : option User.t)
| Elsewhere (page : World) (e : ToggleEnv).

Definition step (o : Op) (w : World) : World :=
  match o with
  | Mount e => Js.state (fetchData e w)
  | Toggle e => Js.state (handleToggleComplete e w)
  | AuthChange s => Js.state (onAuthStateChange s w)
  | Elsewhere page e =>
      set_db (db (Js.state (handleToggleComplete e (set_db (db w) page)))) w
  end.

Definition run (ops : list Op) (w : World) : World := fold_left (fun w o => step o w) ops w.

Definition toggles (es : list ToggleEnv) (w : World) : World := run (map Toggle es) w.

End CourseDetail.

(* ===================================================================== *)
(** ** The authentication page *)

Module Auth.
Local Open Scope js_scope.

(** JavaScript's String.prototype.trim on the code units a [string] holds:
    TAB, LF, VT, FF, CR, SPACE and NBSP are the white space below U+0100. *)
Definition is_space (c : ascii) : bool :=
  let n := nat_of_ascii c in
  (Nat.leb 9 n && Nat.leb n 13) || Nat.eqb n 32 || Nat.eqb n 160.

Fixpoint trim_start (s : string) : string :=
  match s with
  | String c s' => if is_space c then trim_start s' else s
  | EmptyString => EmptyString
  end.

Fixpoint trim_end (s : string) : string :=
  match s with
  | EmptyString => EmptyString
  | String c s' =>
      match trim_end s' with
      | EmptyString => if is_space c then EmptyString else String c EmptyString
      | t => String c t
      end
  end.

Definition trim (s : string) : string := trim_end (trim_start s).

Inductive Exn :=
| ZodError (first_issue : string) (issues : list string)
| AuthError (msg : string).

Definition exn_message (e : Exn) : string :=
  match e with
  | ZodError m _ => m
  | AuthError m => m
  end.

Inductive Event :=
| PreventDefault
| Toast (title description : string) (variant : option string)
| Navigate (path : string)
| SignUp (email password emailRedirectTo : string)
| SignInWithPassword (email password : string).

(** The three [useState] cells of the form. *)
Record Form := mkForm {
  loading : bool;
  email : string;
  password : string
}.

Definition set_loading (b : bool) (f : Form) : Form := mkForm b (email f) (password f).

(** What a submission takes from outside: the identity provider's answer
    (an error message, or none) and window.location.origin. *)
Record Env := mkEnv {
  provider_error : option string;
  origin : string
}.

Definition M := Js.M Form Exn Event.

Definition setLoading (b : bool) : M unit := Js.modify (set_loading b).
Definition toast (title description : string) (variant : option string) : M unit :=
  Js.emit (Toast title description variant).
Definition navigate (path : string) : M unit := Js.emit (Navigate path).

Definition is_provider_call (ev : Event) : bool :=
  match ev with
  | SignUp _ _ _ | SignInWithPassword _ _ => true
  | _ => false
  end.

Section Validation.
(** The address syntax z.string().email() accepts; zod is a dependency, not
    part of the repository, so the test is left open. *)
Variable is_email : string -> bool.

(** emailSchema = z.string().email("Invalid email address") *)
Definition emailSchema_parse (s : string) : M string :=
  if is_email s then Js.ret s else Js.throw (ZodError "Invalid email address" []).

(** passwordSchema = z.string().min(6, "Password must be at least 6 characters") *)
Definition passwordSchema_parse (s : string) : M string :=
  if Nat.ltb (String.length s) 6
  then Js.throw (ZodError "Password must be at least 6 characters" [])
  else Js.ret s.

Definition validateInputs : M bool :=
  email <- Js.gets email ;;
  password <- Js.gets password ;;
  Js.try_catch
    (emailSchema_parse email ;;
     passwordSchema_parse password ;;
     Js.ret true)
    (fun error =>
       match error with
       | ZodError first_issue _ => toast "Validation Error" first_issue (Some "destructive")
       | _ => Js.ret tt
       end ;;
       Js.ret false).

Definition supabase_auth_signUp (e : Env) (email password emailRedirectTo : string)
    : M (option string) :=
  Js.emit (SignUp email password emailRedirectTo) ;;
  Js.ret (provider_error e).

Definition supabase_auth_signInWithPassword (e : Env) (email password : string)
    : M (option string) :=
  Js.emit (SignInWithPassword email password) ;;
  Js.ret (provider_error e).

Definition handleSignUp (e : Env) : M unit :=
  Js.emit PreventDefault ;;
  ok <- validateInputs ;;
  if negb ok then Js.ret tt else
  email <- Js.gets email ;;
  password <- Js.gets password ;;
  setLoading true ;;
  Js.try_catch_finally
    (error <- supabase_auth_signUp e (trim email) password (origin e ++ "/") ;;
     match error with
     | Some msg => Js.throw (AuthError msg)
     | None => toast "Success!" "Account created successfully. You can now log in." None
     end)
    (fun error => toast "Sign up failed" (exn_message error) (Some "destructive"))
    (setLoading false).

Definition handleLogin (e : Env) : M unit :=
  Js.emit PreventDefault ;;
  ok <- validateInputs ;;
  if negb ok then Js.ret tt else
  email <- Js.gets email ;;
  password <- Js.gets password ;;
  setLoading true ;;
  Js.try_catch_finally
    (error <- supabase_auth_signInWithPassword e (trim email) password ;;
     match error with
     | Some msg => Js.throw (AuthError msg)
     | None => navigate "/courses"
     end)
    (fun error => toast "Login failed" (exn_message error) (Some "destructive"))
    (setLoading false).

End Validation.
End Auth.

(* ===================================================================== *)
(** ** Concrete runs

    One principal [u1], one course [c1], and two browser tabs of [u1] on
    the course page, [A] and [B], sharing the store. *)

Module Scenario.
Import Schema CourseDetail.

Definition c1 : Course.t :=
  Course.mk "c1" "Introduction to Web Development" "Learn the basics" None 180 "2025-09-29T00:00:00Z".
Definition u1 : User.t := User.mk "u1" "u1@example.com".

Definition db0 : Db := mkDb [c1] [].

(** A page before its mount effect ran: the initial [useState] values. *)
Definition page (d : Db) (s : option User.t) : World :=
  mkWorld d s "c1" None None None true false.

Definition online : FetchEnv := mkFetchEnv true true true.
Definition click (t : string) : ToggleEnv :=
  mkToggleEnv true t (t ++ "+") ("row-" ++ t) (t ++ "db").
Definition click_offline (t : string) : ToggleEnv :=
  mkToggleEnv false t (t ++ "+") ("row-" ++ t) (t ++ "db").

(** Both tabs mount while no record exists. *)
Definition mounted : World := step (Mount online) (page db0 (Some u1)).

(** Tab B marks the course complete: the record is created. *)
Definition B_completed : World := step (Toggle (click "T1")) mounted.

(** Tab A meanwhile still shows "not started". *)
Definition A_behind : World := step (Elsewhere mounted (click "T1")) mounted.

(** Tab A is reloaded and sees the completed record; then tab B marks the
    course incomplete again; tab A still shows "completed". *)
Definition A_fresh : World := step (Mount online) A_behind.
Definition B_reopened : World := step (Toggle (click "T2")) B_completed.
Definition A_stale : World := step (Elsewhere B_completed (click "T2")) A_fresh.

(** A signed-out page. *)
Definition anonymous : World := step (Mount online) (page db0 None).

(** A stand-in for the address test of the auth form: one "@" with text on
    both sides. *)
Definition has_at_sign (s : string) : bool :=
  match index 0 "@" s with
  | Some i => Nat.ltb 0 i && Nat.ltb (i + 1) (String.length s)
  | None => false
  end.

Definition short_password : Auth.Form := Auth.mkForm false "ann@example.com" "12345".
Definition provider_up : Auth.Env := Auth.mkEnv None "https://learnhub.example".

End Scenario.

(* ===================================================================== *)
(** ** What the course-detail page shows *)

Module CourseDetailView.
Import Schema CourseDetail.

(** The right column: the progress controls of a signed-in user (status
    text, and the button's label, disabled flag and variant), or the login
    prompt. *)
Inductive Sidebar :=
| ProgressControls (status button_label : string) (button_disabled : bool)
    (button_variant : string)
| LoginPrompt.

Inductive Screen :=
| Skeletons
| Nothing
| Page (c : Course.t) (completed_badge : bool) (sidebar : Sidebar).

(** userCourse?.completed, as a condition *)
Definition shows_completed (w : World) : bool :=
  match userCourse w with
  | Some r => UserCourse.completed r
  | None => false
  end.

Definition render (w : World) : Screen :=
  if loading w then Skeletons
  else
    match course w with
    | None => Nothing
    | Some c =>
        Page c (shows_completed w)
          (match user w with
           | Some _ =>
               ProgressControls
                 (if shows_completed w then "Completed" else "Not Started")
                 (if updating w then "Updating..."
                  else if shows_completed w then "Mark as Incomplete"
                  else "Mark as Complete")
                 (updating w)
                 (if shows_completed w then "outline" else "default")
           | None => LoginPrompt
           end)
    end.

(** The [completed] value a write request carries. *)
Definition written_completed (q : Query) : option bool :=
  match q with
  | Update c _ _ | Insert _ _ c _ => Some c
  | _ => None
  end.

(** Some request of the run was rejected by a row-level-security policy. *)
Definition answered_forbidden (evs : list Event) : bool :=
  existsb (fun c => match snd c with Some Forbidden => true | _ => false end)
          (store_calls evs).

Definition has_toast (evs : list Event) : bool :=
  existsb (fun ev => match ev with Toast _ _ _ => true | _ => false end) evs.

Definition has_navigate (evs : list Event) : bool :=
  existsb (fun ev => match ev with Navigate _ => true | _ => false end) evs.

(** *** Integrity of the table beyond the pair constraint *)

(** The columns no statement of the client assigns. *)
Definition identity (r : UserCourse.t) : string * string * string * string :=
  (UserCourse.id r, UserCourse.user_id r, UserCourse.course_id r,
   UserCourse.created_at r).

(** PRIMARY KEY (id) *)
Fixpoint primary_key (rows : list UserCourse.t) : bool :=
  match rows with
  | [] => true
  | r :: rows' =>
      negb (existsb (fun x => UserCourse.id x =? UserCourse.id r) rows')
      && primary_key rows'
  end.

(** course_id REFERENCES courses(id) *)
Definition references_courses (d : Db) : bool :=
  forallb (fun r => existsb (fun k => Course.id k =? UserCourse.course_id r) (courses d))
          (user_courses d).

(** The page's idea of who is signed in never runs ahead of the session:
    it shows nobody, or the user of the session. *)
Definition user_has_session (w : World) : Prop :=
  user w = None \/ user w = session w.

End CourseDetailView.

(* ===================================================================== *)
(** ** The course-list page and its cards *)

Module CourseList.
Import Schema.
Local Open Scope js_scope.

Inductive Query :=
| GetUser
| SelectCourses
| SelectUserCourses (user_id : string).

Inductive Event :=
| Toast (title description : string) (variant : option string)
| StoreCall (q : Query) (error : option StoreError).

(** The backend as this session sees it, and the four [useState] cells. *)
Record World := mkWorld {
  db : Db;
  session : option User.t;
  courses : list Course.t;
  userCourses : list UserCourse.t;
  user : option User.t;
  loading : bool
}.

Definition set_courses (l : list Course.t) (w : World) : World :=
  mkWorld (db w) (session w) l (userCourses w) (user w) (loading w).
Definition set_userCourses (l : list UserCourse.t) (w : World) : World :=
  mkWorld (db w) (session w) (courses w) l (user w) (loading w).
Definition set_user (u : option User.t) (w : World) : World :=
  mkWorld (db w) (session w) (courses w) (userCourses w) u (loading w).
Definition set_loading (b : bool) (w : World) : World :=
  mkWorld (db w) (session w) (courses w) (userCourses w) (user w) b.
Definition set_session (s : option User.t) (w : World) : World :=
  mkWorld (db w) s (courses w) (userCourses w) (user w) (loading w).

Definition M := Js.M World StoreError Event.

Definition setCourses (l : list Course.t) : M unit := Js.modify (set_courses l).
Definition setUserCourses (l : list UserCourse.t) : M unit :=
  Js.modify (set_userCourses l).
Definition setUser (u : option User.t) : M unit := Js.modify (set_user u).
Definition setLoading (b : bool) : M unit := Js.modify (set_loading b).
Definition toast (title description : string) (variant : option string) : M unit :=
  Js.emit (Toast title description variant).

Definition auth_uid (w : World) : option string := option_map User.id (session w).

(** SELECT * FROM user_courses WHERE user_id = $1, restricted to the rows
    the SELECT policy lets the caller see. *)
Definition select_user_courses (auth_uid : option string) (user_id : string)
    (d : Db) : list UserCourse.t :=
  filter (fun r => owns auth_uid r && (UserCourse.user_id r =? user_id))
         (user_courses d).

Record FetchEnv := mkFetchEnv {
  net_user : bool;
  net_courses : bool;
  net_progress : bool
}.

Section Order.
(** The order of timestamptz values on their text form: [newer a b] when
    [a] is not older than [b].  Left open. *)
Variable newer : string -> string -> bool.

Fixpoint insert_desc (c : Course.t) (l : list Course.t) : list Course.t :=
  match l with
  | [] => [c]
  | x :: l' =>
      if newer (Course.created_at c) (Course.created_at x)
      then c :: l else x :: insert_desc c l'
  end.

(** SELECT * FROM courses ORDER BY created_at DESC   (policy: USING (true)) *)
Definition select_courses_desc (d : Db) : list Course.t :=
  fold_right insert_desc [] (Schema.courses d).

Definition supabase_getUser (net : bool) : M (option User.t) :=
  fun w =>
    if net then (inr (session w), w, [StoreCall GetUser None])
    else (inr None, w, [StoreCall GetUser (Some StoreUnavailable)]).

(** supabase.from("courses").select("*").order("created_at", { ascending: false }) *)
Definition supabase_select_courses (net : bool)
    : M (option (list Course.t) * option StoreError) :=
  fun w =>
    if net then (inr (Some (select_courses_desc (db w)), None), w,
                 [StoreCall SelectCourses None])
    else (inr (None, Some StoreUnavailable), w,
          [StoreCall SelectCourses (Some StoreUnavailable)]).

(** supabase.from("user_courses").select("*").eq("user_id", u) *)
Definition supabase_select_user_courses (net : bool) (user_id : string)
    : M (option (list UserCourse.t) * option StoreError) :=
  fun w =>
    let q := SelectUserCourses user_id in
    if net then (inr (Some (select_user_courses (auth_uid w) user_id (db w)), None), w,
                 [StoreCall q None])
    else (inr (None, Some StoreUnavailable), w, [StoreCall q (Some StoreUnavailable)]).

(** data || [] *)
Definition or_empty {A} (data : option (list A)) : list A :=
  match data with
  | Some l => l
  | None => []
  end.

Definition fetchData (e : FetchEnv) : M unit :=
  Js.try_catch_finally
    (currentUser <- supabase_getUser (net_user e) ;;
     setUser currentUser ;;
     '(coursesData, coursesError) <- supabase_select_courses (net_courses e) ;;
     match coursesError with
     | Some err => Js.throw err
     | None =>
         setCourses (or_empty coursesData) ;;
         match currentUser with
         | Some cu =>
             '(userCoursesData, userCoursesError) <-
               supabase_select_user_courses (net_progress e) (User.id cu) ;;
             match userCoursesError with
             | Some err => Js.throw err
             | None => setUserCourses (or_empty userCoursesData)
             end
         | None => Js.ret tt
         end
     end)
    (fun error => toast "Error" (message error) (Some "destructive"))
    (setLoading false).

End Order.

Definition onAuthStateChange (s : option User.t) : M unit :=
  Js.modify (set_session s) ;;
  setUser s.

(** userCourses.some(uc => uc.course_id === courseId && uc.completed) *)
Definition isCompleted (w : World) (courseId : string) : bool :=
  existsb (fun uc => (UserCourse.course_id uc =? courseId) && UserCourse.completed uc)
          (userCourses w).

(** What a CourseCard shows of its props: the link target, the texts, and
    whether the completion badge is there. *)
Record Card := mkCard {
  link_to : string;
  card_title : string;
  card_description : string;
  card_thumbnail : option string;
  card_duration : Z;
  badge : bool
}.

Definition CourseCard (id title description : string) (thumbnail : option string)
    (duration : Z) (completed : bool) : Card :=
  mkCard ("/course/" ++ id) title description thumbnail duration completed.

Inductive Grid :=
| Skeletons (n : nat)
| Cards (l : list Card).

(** The grid, and whether the "No courses available yet" message shows. *)
Definition render (w : World) : Grid * bool :=
  (if loading w then Skeletons 3
   else Cards (map (fun course =>
                      CourseCard (Course.id course) (Course.title course)
                        (Course.description course) (Course.thumbnail course)
                        (Course.duration course) (isCompleted w (Course.id course)))
                   (courses w)),
   negb (loading w) && Nat.eqb (length (courses w)) 0).

Definition has_toast (evs : list Event) : bool :=
  existsb (fun ev => match ev with Toast _ _ _ => true | _ => false end) evs.

End CourseList.

(* ===================================================================== *)
(** ** The route guard *)

Module ProtectedRoute.
Local Open Scope js_scope.

Inductive Event := GetUser (reached : bool).

Record World := mkWorld {
  session : option User.t;
  user : option User.t;
  loading : bool
}.

Definition M := Js.M World Empty_set Event.

Definition setUser (u : option User.t) : M unit :=
  Js.modify (fun w => mkWorld (session w) u (loading w)).
Definition setLoading (b : bool) : M unit :=
  Js.modify (fun w => mkWorld (session w) (user w) b).

Definition supabase_getUser (net : bool) : M (option User.t) :=
  fun w => (inr (if net then session w else None), w, [GetUser net]).

Definition checkUser (net : bool) : M unit :=
  currentUser <- supabase_getUser net ;;
  setUser currentUser ;;
  setLoading false.

Definition onAuthStateChange (s : option User.t) : M unit :=
  Js.modify (fun w => mkWorld s (user w) (loading w)) ;;
  setUser s ;;
  setLoading false.

Inductive Screen :=
| Skeletons
| Redirect (to : string)
| Children.

Definition render (w : World) : Screen :=
  if loading w then Skeletons
  else match user w with
       | None => Redirect "/auth"
       | Some _ => Children
       end.

Inductive Op :=
| CheckUser (net : bool)
| AuthEvent (s : option User.t).

Definition step (o : Op) (w : World) : World :=
  match o with
  | CheckUser net => Js.state (checkUser net w)
  | AuthEvent s => Js.state (onAuthStateChange s w)
  end.

Definition run (ops : list Op) (w : World) : World :=
  fold_left (fun w o => step o w) ops w.

(** The component before its effect ran. *)
Definition initial (s : option User.t) : World := mkWorld s None true.

End ProtectedRoute.

(* ===================================================================== *)
(** ** The navigation bar *)

Module Navbar.
Local Open Scope js_scope.

Inductive Event :=
| SignOut
| Toast (title description : string) (variant : option string)
| Navigate (path : string).

(** The session, and the theme next-themes holds ([undefined] before it
    resolved). *)
Record World := mkWorld {
  session : option User.t;
  theme : option string
}.

Definition M := Js.M World Empty_set Event.

(** supabase.auth.signOut(): { error }.  [failure] is the error the provider
    answers with, if any; the session is dropped when there is none. *)
Definition supabase_auth_signOut (failure : option string) : M (option string) :=
  Js.emit SignOut ;;
  match failure with
  | Some msg => Js.ret (Some msg)
  | None => Js.modify (fun w => mkWorld None (theme w)) ;; Js.ret None
  end.

Definition handleLogout (failure : option string) : M unit :=
  error <- supabase_auth_signOut failure ;;
  match error with
  | Some _ =>
      Js.emit (Toast "Error" "Failed to log out. Please try again." (Some "destructive"))
  | None => Js.emit (Navigate "/")
  end.

Definition setTheme (t : string) : M unit :=
  Js.modify (fun w => mkWorld (session w) (Some t)).

Definition toggleTheme : M unit :=
  theme <- Js.gets theme ;;
  setTheme (match theme with
            | Some t => if t =? "dark" then "light" else "dark"
            | None => "dark"
            end).

(** The right side of the bar for the [user] and [showAuthButton] props. *)
Inductive Controls :=
| LoggedIn (email : string)
| LoginButton
| NoControls.

Definition render (user : option User.t) (showAuthButton : bool) : Controls :=
  match user with
  | Some u => LoggedIn (User.email u)
  | None => if showAuthButton then LoginButton else NoControls
  end.

End Navbar.

(* ===================================================================== *)
(** ** White space at the ends of a string *)

Module Text.

Definition starts_with_space (s : string) : bool :=
  match s with
  | String c _ => Auth.is_space c
  | EmptyString => false
  end.

Fixpoint ends_with_space (s : string) : bool :=
  match s with
  | EmptyString => false
  | String c EmptyString => Auth.is_space c
  | String _ s' => ends_with_space s'
  end.

End Text.

(* ===================================================================== *)
(** ** The text form of a uuid *)

Module Uuid.

(** The store's [uuid] columns are compared here on their text.  This is
    the comparison of the store for texts in the canonical form, the one
    the store itself prints: 8-4-4-4-12 lower-case hexadecimal digits.  A
    text that is no uuid at all is refused by the store before any
    constraint is looked at; statements that name the constraint a request
    fails on are therefore made for canonical ids. *)
Definition is_hex (c : ascii) : bool :=
  let n := nat_of_ascii c in
  (Nat.leb 48 n && Nat.leb n 57) || (Nat.leb 97 n && Nat.leb n 102).

Definition is_hyphen (c : ascii) : bool := Nat.eqb (nat_of_ascii c) 45.

Fixpoint canonical_from (pos : nat) (s : string) : bool :=
  match s with
  | EmptyString => Nat.eqb pos 36
  | String c s' =>
      (if Nat.eqb pos 8 || Nat.eqb pos 13 || Nat.eqb pos 18 || Nat.eqb pos 23
       then is_hyphen c else is_hex c)
      && canonical_from (S pos) s'
  end.

Definition canonical (s : string) : bool := canonical_from 0 s.

End Uuid.

(* ===================================================================== *)
(** ** More concrete runs *)

Module Scenario2.
Import Schema CourseDetail.

Definition u2 : User.t := User.mk "u2" "u2@example.com".

Definition c2 : Course.t :=
  Course.mk "c2" "Python Programming Masterclass" "Master Python" None 240
    "2025-09-30T00:00:00Z".

(** The progress request of a mount is lost. *)
Definition progress_lost : FetchEnv := mkFetchEnv true true false.
Definition course_lost : FetchEnv := mkFetchEnv true false true.

(** Tab B has completed the course; tab A is opened while the progress
    request fails. *)
Definition A_blind : World :=
  step (Mount progress_lost) (Scenario.page (db Scenario.B_completed) (Some Scenario.u1)).

(** Tab B, in step with the store, sees the session move to [u2]. *)
Definition B_switched : World := step (AuthChange (Some u2)) Scenario.B_completed.

(** A signed-in page that was mounted on a course, with the button showing,
    when the course has since been taken out of the catalog. *)
Definition ann : User.t :=
  User.mk "6f1c2a9e-3b7d-4c15-9e0a-5d2b8c4f7a31" "ann@example.com".
Definition withdrawn : Course.t :=
  Course.mk "0b9d4e72-5a1f-4c3e-8f6b-2d7a9c1e4b58" "UI/UX Design Fundamentals"
    "Discover the principles" None 150 "2025-09-29T00:00:00Z".
Definition orphaned : World :=
  mkWorld (mkDb [] []) (Some ann) (Course.id withdrawn) (Some withdrawn)
    (Some ann) None false false.
Definition click_uuid (t : string) : ToggleEnv :=
  mkToggleEnv true t (t ++ "+") "c4a8e1f0-7b2d-4e96-a3c5-9f0d6b1e8a27" (t ++ "db").

(** Text order of ISO timestamps of one format. *)
Definition iso_newer (a b : string) : bool :=
  negb (match String.compare a b with Lt => true | _ => false end).

Definition catalog : Db :=
  mkDb [Scenario.c1; c2]
       [UserCourse.mk "r1" "u1" "c1" true (Some "T1") "T1db";
        UserCourse.mk "r2" "u2" "c1" false None "T0db";
        UserCourse.mk "r3" "u1" "c2" false None "T2db"].

Definition list_page (d : Db) (s : option User.t) : CourseList.World :=
  CourseList.mkWorld d s [] [] None true.

Definition list_online : CourseList.FetchEnv := CourseList.mkFetchEnv true true true.
Definition list_progress_lost : CourseList.FetchEnv := CourseList.mkFetchEnv true true false.

Definition valid_form : Auth.Form := Auth.mkForm false " ann@example.com " "secret".

End Scenario2.

(* ===================================================================== *)
(** * Properties *)

(** ** The store operations *)

Module SchemaFacts.
Import Schema.

Lemma owns_same_pair (p c : string) (r : UserCourse.t) :
  owns (Some p) r && same_pair p c r = same_pair p c r.
Proof.
  unfold owns, same_pair.
  rewrite (String.eqb_sym p (UserCourse.user_id r)).
  destruct (UserCourse.user_id r =? p); reflexivity.
Qed.

Lemma getRecord_filter (p c : string) (d : Db) :
  select_user_course (Some p) p c d = filter (same_pair p c) (user_courses d).
Proof.
  unfold select_user_course. apply filter_ext. intro r. apply owns_same_pair.
Qed.

Lemma filter_nil_existsb {A} (f : A -> bool) (l : list A) :
  filter f l = [] -> existsb f l = false.
Proof.
  induction l as [|a l IH]; simpl; [reflexivity|].
  destruct (f a); [discriminate | exact IH].
Qed.

Lemma existsb_false_filter {A} (f : A -> bool) (l : list A) :
  existsb f l = false -> filter f l = [].
Proof.
  induction l as [|a l IH]; simpl; [reflexivity|].
  destruct (f a); simpl; [discriminate | exact IH].
Qed.

(** A rewrite of rows that keeps the key columns commutes with a selection
    on the key columns. *)
Lemma filter_map_key {A} (p : A -> bool) (f : A -> A) (l : list A) :
  (forall a, p (f a) = p a) -> filter p (map f l) = map f (filter p l).
Proof.
  intro Hk. induction l as [|a l IH]; simpl; [reflexivity|].
  rewrite Hk. destruct (p a); simpl; rewrite IH; reflexivity.
Qed.

Lemma existsb_map_key {A} (p : A -> bool) (f : A -> A) (l : list A) :
  (forall a, p (f a) = p a) -> existsb p (map f l) = existsb p l.
Proof.
  intro Hk. induction l as [|a l IH]; simpl; [reflexivity|].
  rewrite Hk, IH. reflexivity.
Qed.

Lemma update_rows auth_uid c at_ rid d :
  user_courses (update_user_course auth_uid c at_ rid d)
  = map (rewrite_row auth_uid c at_ rid) (user_courses d).
Proof. reflexivity. Qed.

Lemma rewrite_row_pair auth_uid c at_ rid p k r :
  same_pair p k (rewrite_row auth_uid c at_ rid r) = same_pair p k r.
Proof.
  unfold rewrite_row. destruct (_ && _); reflexivity.
Qed.

Lemma rewrite_row_key auth_uid c at_ rid r :
  UserCourse.user_id (rewrite_row auth_uid c at_ rid r) = UserCourse.user_id r
  /\ UserCourse.course_id (rewrite_row auth_uid c at_ rid r) = UserCourse.course_id r
  /\ UserCourse.id (rewrite_row auth_uid c at_ rid r) = UserCourse.id r.
Proof.
  unfold rewrite_row. destruct (_ && _); simpl; auto.
Qed.

(** *** UNIQUE(user_id, course_id) is kept by both statements *)

Lemma unique_map_key (f : UserCourse.t -> UserCourse.t) rows :
  (forall r, UserCourse.user_id (f r) = UserCourse.user_id r
             /\ UserCourse.course_id (f r) = UserCourse.course_id r) ->
  unique_user_course (map f rows) = unique_user_course rows.
Proof.
  intro Hk. induction rows as [|r rows IH]; simpl; [reflexivity|].
  destruct (Hk r) as [-> ->]. rewrite IH. f_equal. f_equal.
  apply existsb_map_key. intro a. unfold same_pair.
  destruct (Hk a) as [-> ->]. reflexivity.
Qed.

Lemma same_pair_sym (a b : UserCourse.t) :
  same_pair (UserCourse.user_id a) (UserCourse.course_id a) b
  = same_pair (UserCourse.user_id b) (UserCourse.course_id b) a.
Proof.
  unfold same_pair.
  rewrite (String.eqb_sym (UserCourse.user_id b)), (String.eqb_sym (UserCourse.course_id b)).
  reflexivity.
Qed.

Lemma unique_app_new rows new :
  unique_user_course rows = true ->
  existsb (same_pair (UserCourse.user_id new) (UserCourse.course_id new)) rows = false ->
  unique_user_course (rows ++ [new]) = true.
Proof.
  induction rows as [|r rows IH]; simpl; [reflexivity|].
  intros Hu Hn.
  apply andb_true_iff in Hu as [Hr Hu].
  apply orb_false_iff in Hn as [Hrn Hn].
  rewrite IH by assumption. rewrite andb_true_r.
  rewrite existsb_app. simpl. rewrite orb_false_r.
  apply negb_true_iff in Hr. rewrite Hr. simpl.
  rewrite same_pair_sym, Hrn. reflexivity.
Qed.

Lemma update_unique auth_uid c at_ rid d :
  unique_user_course (user_courses (update_user_course auth_uid c at_ rid d))
  = unique_user_course (user_courses d).
Proof.
  rewrite update_rows. apply unique_map_key.
  intro r. destruct (rewrite_row_key auth_uid c at_ rid r) as (? & ? & ?). auto.
Qed.

Lemma insert_inv auth_uid uuid now p k c at_ d row d' :
  insert_user_course auth_uid uuid now p k c at_ d = inr (row, d') ->
  row = UserCourse.mk uuid p k c at_ now
  /\ d' = set_user_courses (user_courses d ++ [row]) d
  /\ owns auth_uid row = true
  /\ existsb (same_pair p k) (user_courses d) = false.
Proof.
  unfold insert_user_course.
  destruct (owns auth_uid _) eqn:Ho; simpl; [|discriminate].
  destruct (existsb (fun r => UserCourse.id r =? uuid) _); [discriminate|].
  destruct (existsb (same_pair p k) _) eqn:Hp; [discriminate|].
  destruct (negb _); [discriminate|].
  intro H. injection H as <- <-. auto.
Qed.

Lemma insert_unique auth_uid uuid now p k c at_ d row d' :
  insert_user_course auth_uid uuid now p k c at_ d = inr (row, d') ->
  unique_user_course (user_courses d) = true ->
  unique_user_course (user_courses d') = true.
Proof.
  intros H Hu. apply insert_inv in H as (-> & -> & _ & Hp).
  simpl. apply unique_app_new; assumption.
Qed.

(** The constraint is what rejects a second row for a pair. *)
Lemma insert_existing_pair auth_uid uuid now p k c at_ d :
  existsb (same_pair p k) (user_courses d) = true ->
  exists err, insert_user_course auth_uid uuid now p k c at_ d = inl err.
Proof.
  intro Hp. unfold insert_user_course.
  destruct (negb (owns _ _)); [eauto|].
  destruct (existsb (fun r => UserCourse.id r =? uuid) _); [eauto|].
  rewrite Hp. eauto.
Qed.

(** With the constraint in force a selection on the pair has at most one row. *)
Lemma unique_filter_le_1 p k rows :
  unique_user_course rows = true ->
  length (filter (same_pair p k) rows) <= 1.
Proof.
  induction rows as [|r rows IH]; simpl; [lia|].
  intro Hu. apply andb_true_iff in Hu as [Hr Hu]. specialize (IH Hu).
  destruct (same_pair p k r) eqn:Hpk; [|exact IH].
  unfold same_pair in Hpk. apply andb_true_iff in Hpk as [Hp Hk].
  apply String.eqb_eq in Hp, Hk. rewrite Hp, Hk in Hr.
  apply negb_true_iff in Hr. rewrite (existsb_false_filter _ _ Hr). simpl. lia.
Qed.

(** *** The completed / completed_at pair *)

Lemma update_consistent auth_uid c at_ rid d :
  Bool.eqb c (match at_ with Some _ => true | None => false end) = true ->
  forallb completion_consistent (user_courses d) = true ->
  forallb completion_consistent
    (user_courses (update_user_course auth_uid c at_ rid d)) = true.
Proof.
  intros Hc Hd. rewrite update_rows.
  rewrite forallb_forall in *. intros x Hx.
  apply in_map_iff in Hx as (r & <- & Hr).
  unfold rewrite_row. destruct (_ && _); [exact Hc | auto].
Qed.

Lemma insert_consistent auth_uid uuid now p k at_ d row d' :
  insert_user_course auth_uid uuid now p k true (Some at_) d = inr (row, d') ->
  forallb completion_consistent (user_courses d) = true ->
  completion_consistent row = true
  /\ forallb completion_consistent (user_courses d') = true.
Proof.
  intros H Hd. apply insert_inv in H as (-> & -> & _ & _).
  split; [reflexivity|]. simpl. rewrite forallb_app, Hd. reflexivity.
Qed.

End SchemaFacts.

(** ** The toggle, path by path *)

Module CourseDetailFacts.
Import Schema CourseDetail SchemaFacts.

Ltac world_simpl :=
  cbn [user userCourse param_id db session course loading updating
       set_db set_userCourse set_updating set_loading set_user set_course
       set_session fst snd app Js.state Js.trace Js.result].

Ltac run_handler :=
  unfold handleToggleComplete, fetchData, onAuthStateChange,
    supabase_update, supabase_insert, supabase_getUser,
    supabase_select_course_single, supabase_select_user_course_maybeSingle,
    setUserCourse, setUpdating, setLoading, setUser, setCourse, toast, navigate,
    Js.try_catch_finally, Js.bind, Js.gets, Js.modify, Js.emit, Js.ret, Js.throw;
  unfold auth_uid in *;
  world_simpl.

Lemma toggle_anonymous e w :
  user w = None ->
  handleToggleComplete e w
  = (inr tt, w,
     [Toast "Authentication required" "Please log in to track your progress" None;
      Navigate "/auth"]).
Proof.
  intro Hu. run_handler. rewrite Hu. reflexivity.
Qed.

Lemma toggle_update_sent e w u r :
  user w = Some u -> userCourse w = Some r -> net_ok e = true ->
  let c := negb (UserCourse.completed r) in
  handleToggleComplete e w
  = (inr tt,
     set_updating false
       (set_userCourse
          (Some (UserCourse.set_completion c (if c then Some (now' e) else None) r))
          (set_db (update_user_course (auth_uid w) c (if c then Some (now e) else None)
                     (UserCourse.id r) (db w))
             (set_updating true w))),
     [StoreCall (Update c (if c then Some (now e) else None) (UserCourse.id r)) None;
      success_toast (Some r)]).
Proof.
  intros Hu Hr Hn. run_handler. rewrite Hu, Hr, Hn. reflexivity.
Qed.

Lemma toggle_update_lost e w u r :
  user w = Some u -> userCourse w = Some r -> net_ok e = false ->
  let c := negb (UserCourse.completed r) in
  handleToggleComplete e w
  = (inr tt, set_updating false (set_updating true w),
     [StoreCall (Update c (if c then Some (now e) else None) (UserCourse.id r))
        (Some StoreUnavailable);
      error_toast StoreUnavailable]).
Proof.
  intros Hu Hr Hn. run_handler. rewrite Hu, Hr, Hn. reflexivity.
Qed.

Lemma toggle_insert_lost e w u :
  user w = Some u -> userCourse w = None -> net_ok e = false ->
  handleToggleComplete e w
  = (inr tt, set_updating false (set_updating true w),
     [StoreCall (Insert (User.id u) (param_id w) true (Some (now e)))
        (Some StoreUnavailable);
      error_toast StoreUnavailable]).
Proof.
  intros Hu Hr Hn. run_handler. rewrite Hu, Hr, Hn. reflexivity.
Qed.

Lemma toggle_insert_rejected e w u err :
  user w = Some u -> userCourse w = None -> net_ok e = true ->
  insert_user_course (auth_uid w) (uuid e) (db_now e) (User.id u) (param_id w)
    true (Some (now e)) (db w) = inl err ->
  handleToggleComplete e w
  = (inr tt, set_updating false (set_updating true w),
     [StoreCall (Insert (User.id u) (param_id w) true (Some (now e))) (Some err);
      error_toast err]).
Proof.
  intros Hu Hr Hn Hi. run_handler. rewrite Hu, Hr, Hn. world_simpl.
  rewrite Hi. reflexivity.
Qed.

Lemma toggle_insert_done e w u row d :
  user w = Some u -> userCourse w = None -> net_ok e = true ->
  insert_user_course (auth_uid w) (uuid e) (db_now e) (User.id u) (param_id w)
    true (Some (now e)) (db w) = inr (row, d) ->
  handleToggleComplete e w
  = (inr tt,
     set_updating false (set_userCourse (Some row) (set_db d (set_updating true w))),
     [StoreCall (Insert (User.id u) (param_id w) true (Some (now e))) None;
      success_toast None]).
Proof.
  intros Hu Hr Hn Hi. run_handler. rewrite Hu, Hr, Hn. world_simpl.
  rewrite Hi. reflexivity.
Qed.

(** Splits a goal about [handleToggleComplete e w] into its six paths and
    rewrites the run with the equation of each. *)
Ltac toggle_paths e w :=
  let Hu := fresh "Hu" in let Hr := fresh "Hr" in
  let Hn := fresh "Hn" in let Hi := fresh "Hi" in
  destruct (user w) as [?u|] eqn:Hu;
  [ destruct (userCourse w) as [?r|] eqn:Hr;
    destruct (net_ok e) eqn:Hn;
    [ rewrite (toggle_update_sent e w Hu Hr Hn)
    | rewrite (toggle_update_lost e w Hu Hr Hn)
    | destruct (insert_user_course (auth_uid w) (uuid e) (db_now e) (User.id u)
                  (param_id w) true (Some (now e)) (db w)) as [?err|[?row ?d]] eqn:Hi;
      [ rewrite (toggle_insert_rejected e w Hu Hr Hn Hi)
      | rewrite (toggle_insert_done e w Hu Hr Hn Hi) ]
    | rewrite (toggle_insert_lost e w Hu Hr Hn) ]
  | rewrite (toggle_anonymous e w Hu) ].

(** C6.  A toggle with no signed-in user fails as unauthenticated: it shows
    the "Authentication required" toast, sends the user to the sign-in
    page, and does nothing else. No request reaches the store, and the store
    and the page's state are what they were. *)
Theorem toggle_unauthenticated_no_mutation (e : ToggleEnv) (w : World) :
  user w = None ->
  let x := handleToggleComplete e w in
  Js.trace x = [Toast "Authentication required" "Please log in to track your progress" None;
                Navigate "/auth"]
  /\ store_calls (Js.trace x) = []
  /\ Js.state x = w.
Proof.
  intro Hu. cbv zeta. rewrite (toggle_anonymous e w Hu). cbn. auto.
Qed.

(** C10.  When the write a toggle sends comes back with an error, the local
    progress view is the one the call started with (and so is the store):
    the view is assigned only after the error check. *)
Theorem toggle_write_error_keeps_view (e : ToggleEnv) (w : World) :
  write_failed (Js.trace (handleToggleComplete e w)) = true ->
  userCourse (Js.state (handleToggleComplete e w)) = userCourse w
  /\ db (Js.state (handleToggleComplete e w)) = db w.
Proof.
  toggle_paths e w; cbn; intro H; try discriminate H; auto.
Qed.

Lemma toggle_unauthenticated_no_mutation_witness :
  user Scenario.anonymous = None
  /\ Js.trace (handleToggleComplete (Scenario.click "T1") Scenario.anonymous)
     = [Toast "Authentication required" "Please log in to track your progress" None;
        Navigate "/auth"]
  /\ store_calls (Js.trace (handleToggleComplete (Scenario.click "T1") Scenario.anonymous)) = []
  /\ Js.state (handleToggleComplete (Scenario.click "T1") Scenario.anonymous)
     = Scenario.anonymous.
Proof.
  split; [reflexivity|].
  exact (toggle_unauthenticated_no_mutation (Scenario.click "T1") Scenario.anonymous eq_refl).
Defined.

Lemma toggle_write_error_keeps_view_witness :
  write_failed (Js.trace (handleToggleComplete (Scenario.click_offline "T2")
                            Scenario.B_completed)) = true
  /\ userCourse (Js.state (handleToggleComplete (Scenario.click_offline "T2")
                             Scenario.B_completed))
     = userCourse Scenario.B_completed
  /\ db (Js.state (handleToggleComplete (Scenario.click_offline "T2")
                     Scenario.B_completed))
     = db Scenario.B_completed.
Proof.
  split; [reflexivity|].
  exact (toggle_write_error_keeps_view (Scenario.click_offline "T2")
           Scenario.B_completed eq_refl).
Defined.

(** ** Where the toggle takes its decision from *)

(** C1, as the page does it.  A toggle sends no read to the store. What it
    writes is fixed by the page's local state alone: with a local record
    [r] it sends one update of [r]'s row carrying the negation of [r]'s
    [completed] (and the first clock reading, or null); with no local
    record it sends one insert with [completed = true]; signed out it sends
    nothing. *)
Theorem toggle_decides_from_local_view (e : ToggleEnv) (w : World) :
  reads (Js.trace (handleToggleComplete e w)) = []
  /\ map fst (writes (Js.trace (handleToggleComplete e w)))
     = match user w, userCourse w with
       | None, _ => []
       | Some _, Some r =>
           let c := negb (UserCourse.completed r) in
           [Update c (if c then Some (now e) else None) (UserCourse.id r)]
       | Some u, None => [Insert (User.id u) (param_id w) true (Some (now e))]
       end.
Proof.
  toggle_paths e w; cbn; auto.
Qed.

(** C1 fails as stated.  Tab A shows the record as completed; tab B has
    since marked it incomplete, so the store holds [completed = false].
    A toggle in tab A sends no read; it writes the negation of its local
    value, [false], and the record stays incomplete, where a toggle of the
    stored value would have completed it. *)
Lemma toggle_ignores_store_truth :
  map UserCourse.completed (getRecord "u1" "c1" (db Scenario.A_stale)) = [false]
  /\ option_map UserCourse.completed (userCourse Scenario.A_stale) = Some true
  /\ Js.trace (handleToggleComplete (Scenario.click "T3") Scenario.A_stale)
     = [StoreCall (Update false None "row-T1") None;
        Toast "Marked as incomplete" "Course progress updated" (Some "default")]
  /\ reads (Js.trace (handleToggleComplete (Scenario.click "T3") Scenario.A_stale)) = []
  /\ progress_state "u1" "c1" (db Scenario.A_stale) = IN_PROGRESS
  /\ progress_state "u1" "c1"
       (db (Js.state (handleToggleComplete (Scenario.click "T3") Scenario.A_stale)))
     = IN_PROGRESS.
Proof.
  vm_compute. repeat split.
Qed.

(** C2, as the page does it.  When the insert of a toggle is answered with
    Conflict, the run ends there: that insert is the only request sent (no
    re-read, no update), the Conflict is shown to the user in the error
    toast, and the store and the local view are left as they were. *)
Theorem toggle_conflict_surfaces (e : ToggleEnv) (w : World) (u : User.t)
    (k : string) :
  user w = Some u -> userCourse w = None -> net_ok e = true ->
  insert_user_course (auth_uid w) (uuid e) (db_now e) (User.id u) (param_id w)
    true (Some (now e)) (db w) = inl (Conflict k) ->
  Js.trace (handleToggleComplete e w)
  = [StoreCall (Insert (User.id u) (param_id w) true (Some (now e))) (Some (Conflict k));
     Toast "Error" (message (Conflict k)) (Some "destructive")]
  /\ db (Js.state (handleToggleComplete e w)) = db w
  /\ userCourse (Js.state (handleToggleComplete e w)) = None.
Proof.
  intros Hu Hr Hn Hi. rewrite (toggle_insert_rejected e w Hu Hr Hn Hi).
  cbn. auto.
Qed.

Lemma toggle_conflict_surfaces_witness :
  Js.trace (handleToggleComplete (Scenario.click "T2") Scenario.A_behind)
  = [StoreCall (Insert "u1" "c1" true (Some "T2"))
       (Some (Conflict "user_courses_user_id_course_id_key"));
     Toast "Error" (message (Conflict "user_courses_user_id_course_id_key"))
       (Some "destructive")]
  /\ db (Js.state (handleToggleComplete (Scenario.click "T2") Scenario.A_behind))
     = db Scenario.A_behind
  /\ userCourse (Js.state (handleToggleComplete (Scenario.click "T2") Scenario.A_behind))
     = None.
Proof.
  exact (toggle_conflict_surfaces (Scenario.click "T2") Scenario.A_behind
           (u := Scenario.u1) (k := "user_courses_user_id_course_id_key")
           eq_refl eq_refl eq_refl eq_refl).
Defined.

(** C2 fails as stated.  Tab A shows "not started" while tab B has created
    the record. A toggle in tab A sends the insert, is answered with
    Conflict, and stops: no re-read and no update follow, and the Conflict
    reaches the user, although an update of the existing record by this
    session is one the store accepts. *)
Lemma conflict_surfaces_without_retry :
  map UserCourse.id (getRecord "u1" "c1" (db Scenario.A_behind)) = ["row-T1"]
  /\ store_calls (Js.trace (handleToggleComplete (Scenario.click "T2") Scenario.A_behind))
     = [(Insert "u1" "c1" true (Some "T2"),
         Some (Conflict "user_courses_user_id_course_id_key"))]
  /\ Js.trace (handleToggleComplete (Scenario.click "T2") Scenario.A_behind)
     = [StoreCall (Insert "u1" "c1" true (Some "T2"))
          (Some (Conflict "user_courses_user_id_course_id_key"));
        Toast "Error"
          ("duplicate key value violates unique constraint "
           ++ quoted "user_courses_user_id_course_id_key")
          (Some "destructive")]
  /\ db (Js.state (handleToggleComplete (Scenario.click "T2") Scenario.A_behind))
     = db Scenario.A_behind
  /\ Js.result (supabase_update true false None "row-T1" Scenario.A_behind) = inr None
  /\ progress_state "u1" "c1"
       (db (Js.state (supabase_update true false None "row-T1" Scenario.A_behind)))
     = IN_PROGRESS.
Proof.
  vm_compute. repeat split.
Qed.

(** ** What each operation does to the store and to the local view *)

Lemma fetchData_effect e w :
  db (Js.state (fetchData e w)) = db w
  /\ param_id (Js.state (fetchData e w)) = param_id w
  /\ (userCourse (Js.state (fetchData e w)) = userCourse w
      \/ userCourse (Js.state (fetchData e w)) = None
      \/ exists r, userCourse (Js.state (fetchData e w)) = Some r
                   /\ In r (user_courses (db w))).
Proof.
  destruct w as [d s pid c u uc l up], e as [nu nc np].
  run_handler. cbn [net_user net_course net_progress].
  assert (Hsel : forall a p k,
    match select_user_course a p k d with
    | [r] => In r (user_courses d)
    | _ => True
    end).
  { intros a p k. destruct (select_user_course a p k d) as [|r [|r' l']] eqn:Hs; auto.
    assert (Hin : In r (select_user_course a p k d)) by (rewrite Hs; left; reflexivity).
    apply filter_In in Hin. tauto. }
  destruct nu; [destruct s as [cu|]|]; world_simpl;
    (destruct nc; world_simpl;
     [destruct (select_course pid d) as [|k [|k' l']]; world_simpl|]);
    auto 9;
    destruct np; world_simpl; cbn [option_map]; auto 9;
    match goal with
    | |- context [select_user_course ?a ?p ?k d] =>
        specialize (Hsel a p k);
        destruct (select_user_course a p k d) as [|r [|r' l'']]
    end; world_simpl; eauto 9.
Qed.

Lemma onAuthStateChange_effect s w :
  db (Js.state (onAuthStateChange s w)) = db w
  /\ param_id (Js.state (onAuthStateChange s w)) = param_id w
  /\ userCourse (Js.state (onAuthStateChange s w)) = userCourse w.
Proof. run_handler. auto. Qed.

(** The store after a toggle: untouched, or the outcome of one UPDATE with a
    consistent pair, or the outcome of one accepted INSERT of a completed
    row. *)
Lemma toggle_db e w :
  db (Js.state (handleToggleComplete e w)) = db w
  \/ (exists a c at_ rid,
        db (Js.state (handleToggleComplete e w)) = update_user_course a c at_ rid (db w)
        /\ Bool.eqb c (match at_ with Some _ => true | None => false end) = true)
  \/ (exists a uuid now p k at_ row,
        insert_user_course a uuid now p k true (Some at_) (db w)
        = inr (row, db (Js.state (handleToggleComplete e w)))
        /\ userCourse (Js.state (handleToggleComplete e w)) = Some row).
Proof.
  toggle_paths e w; world_simpl; auto.
  - right; left. do 4 eexists. split; [reflexivity|].
    destruct (UserCourse.completed r); reflexivity.
  - right; right. do 7 eexists. split; [exact Hi | reflexivity].
Qed.

(** Whatever the page believes, a session that is signed out changes no
    row: the INSERT policy rejects its insert and the UPDATE policy hides
    every row from its update. *)
Lemma signed_out_session_writes_nothing e w :
  session w = None ->
  user_courses (db (Js.state (handleToggleComplete e w))) = user_courses (db w).
Proof.
  intro Hse. toggle_paths e w; world_simpl; try reflexivity.
  - unfold auth_uid. rewrite Hse. cbn [option_map]. rewrite update_rows.
    rewrite <- (map_id (user_courses (db w))) at 2.
    apply map_ext. intro x. unfold rewrite_row, owns.
    rewrite andb_false_r. reflexivity.
  - apply insert_inv in Hi as (_ & _ & Ho & _).
    unfold auth_uid in Ho. rewrite Hse in Ho. discriminate Ho.
Qed.

Lemma toggle_param_id e w :
  param_id (Js.state (handleToggleComplete e w)) = param_id w.
Proof. toggle_paths e w; reflexivity. Qed.

Lemma step_param_id o w : param_id (step o w) = param_id w.
Proof.
  destruct o as [e|e|s|v e]; cbn [step].
  - exact (proj1 (proj2 (fetchData_effect e w))).
  - apply toggle_param_id.
  - exact (proj1 (proj2 (onAuthStateChange_effect s w))).
  - reflexivity.
Qed.

Lemma toggle_writes_consistent e w :
  forallb (fun c => write_consistent (fst c))
          (writes (Js.trace (handleToggleComplete e w))) = true.
Proof.
  toggle_paths e w; cbn; try reflexivity;
    destruct (UserCourse.completed r); reflexivity.
Qed.

Lemma toggle_db_consistent e w :
  forallb completion_consistent (user_courses (db w)) = true ->
  forallb completion_consistent
    (user_courses (db (Js.state (handleToggleComplete e w)))) = true.
Proof.
  intro Hd.
  destruct (toggle_db e w) as [-> | [(a & c & at_ & rid & -> & Hc)
                                    | (a & uuid & now & p & k & at_ & row & Hi & _)]].
  - exact Hd.
  - apply update_consistent; assumption.
  - eapply insert_consistent; eassumption.
Qed.

Lemma toggle_unique e w :
  unique_user_course (user_courses (db w)) = true ->
  unique_user_course (user_courses (db (Js.state (handleToggleComplete e w)))) = true.
Proof.
  intro Hd.
  destruct (toggle_db e w) as [-> | [(a & c & at_ & rid & -> & Hc)
                                    | (a & uuid & now & p & k & at_ & row & Hi & _)]].
  - exact Hd.
  - rewrite update_unique. exact Hd.
  - eapply insert_unique; eassumption.
Qed.

Lemma step_db_consistent o w :
  forallb completion_consistent (user_courses (db w)) = true ->
  forallb completion_consistent (user_courses (db (step o w))) = true.
Proof.
  intro Hd. destruct o as [e|e|s|v e]; cbn [step].
  - destruct (fetchData_effect e w) as (-> & _). exact Hd.
  - apply toggle_db_consistent. exact Hd.
  - destruct (onAuthStateChange_effect s w) as (-> & _). exact Hd.
  - world_simpl. apply toggle_db_consistent. exact Hd.
Qed.

Lemma step_view_consistent o w :
  forallb completion_consistent (user_courses (db w)) = true ->
  view_consistent (userCourse w) = true ->
  view_consistent (userCourse (step o w)) = true.
Proof.
  intros Hd Hv. destruct o as [e|e|s|v e]; cbn [step].
  - destruct (fetchData_effect e w) as (_ & _ & [-> | [-> | (r & -> & Hin)]]);
      [exact Hv | reflexivity |].
    simpl. rewrite forallb_forall in Hd. auto.
  - revert Hv. toggle_paths e w; world_simpl;
      try match goal with H : userCourse w = _ |- _ => rewrite H end;
      auto; intros _.
    + simpl. destruct (UserCourse.completed r); reflexivity.
    + eapply insert_consistent; eassumption.
  - destruct (onAuthStateChange_effect s w) as (_ & _ & ->). exact Hv.
  - exact Hv.
Qed.

Lemma step_unique o w :
  unique_user_course (user_courses (db w)) = true ->
  unique_user_course (user_courses (db (step o w))) = true.
Proof.
  intro Hd. destruct o as [e|e|s|v e]; cbn [step].
  - destruct (fetchData_effect e w) as (-> & _). exact Hd.
  - apply toggle_unique. exact Hd.
  - destruct (onAuthStateChange_effect s w) as (-> & _). exact Hd.
  - world_simpl. apply toggle_unique. exact Hd.
Qed.

Lemma run_cons o ops w : run (o :: ops) w = run ops (step o w).
Proof. reflexivity. Qed.

(** ** The invariants *)

(** C5.  Along every sequence of operations (mounts, toggles, sign-ins and
    sign-outs of the page, toggles made on other pages against the same
    store), every stored ProgressRecord has
    [completed = true] exactly when [completed_at] is set, provided this
    held at the start; the same holds of the page's local record; and every
    create or update a toggle then sends carries a consistent pair. *)
Theorem completed_iff_completed_at (ops : list Op) (w : World) (e : ToggleEnv) :
  forallb completion_consistent (user_courses (db w)) = true ->
  view_consistent (userCourse w) = true ->
  forallb completion_consistent (user_courses (db (run ops w))) = true
  /\ view_consistent (userCourse (run ops w)) = true
  /\ forallb (fun c => write_consistent (fst c))
             (writes (Js.trace (handleToggleComplete e (run ops w)))) = true.
Proof.
  revert w. induction ops as [|o ops IH]; intros w Hd Hv.
  - simpl. auto using toggle_writes_consistent.
  - rewrite run_cons. apply IH.
    + apply step_db_consistent; assumption.
    + apply step_view_consistent; assumption.
Qed.

(** C8.  Along every sequence of operations (of the page, and toggles made
    on other pages against the same store), the store holds at most one
    ProgressRecord per (principal, course) pair, provided it did at the
    start; and it is the store that enforces this: an insert for a pair
    that has a record is answered with an error, whoever sends it. *)
Theorem one_record_per_pair (ops : list Op) (w : World) (p k : string) :
  unique_user_course (user_courses (db w)) = true ->
  unique_user_course (user_courses (db (run ops w))) = true
  /\ length (getRecord p k (db (run ops w))) <= 1
  /\ forall auth_uid uuid now c at_,
       getRecord p k (db (run ops w)) <> [] ->
       exists err,
         insert_user_course auth_uid uuid now p k c at_ (db (run ops w)) = inl err.
Proof.
  revert w. induction ops as [|o ops IH]; intros w Hd.
  - simpl. split; [exact Hd|]. split.
    + unfold getRecord. rewrite getRecord_filter.
      apply unique_filter_le_1. exact Hd.
    + intros a uuid now c at_ Hne. apply insert_existing_pair.
      unfold getRecord in Hne. rewrite getRecord_filter in Hne.
      destruct (existsb (same_pair p k) (user_courses (db w))) eqn:Hex; [reflexivity|].
      apply existsb_false_filter in Hex. contradiction.
  - rewrite run_cons. apply IH. apply step_unique. exact Hd.
Qed.

Lemma completed_iff_completed_at_witness :
  forallb completion_consistent (user_courses (db Scenario.mounted)) = true
  /\ view_consistent (userCourse Scenario.mounted) = true
  /\ forallb completion_consistent
       (user_courses (db (run [Toggle (Scenario.click "T1"); Mount Scenario.online;
                               Toggle (Scenario.click "T2")] Scenario.mounted))) = true
  /\ view_consistent
       (userCourse (run [Toggle (Scenario.click "T1"); Mount Scenario.online;
                         Toggle (Scenario.click "T2")] Scenario.mounted)) = true
  /\ forallb (fun c => write_consistent (fst c))
       (writes (Js.trace (handleToggleComplete (Scenario.click "T3")
          (run [Toggle (Scenario.click "T1"); Mount Scenario.online;
                Toggle (Scenario.click "T2")] Scenario.mounted)))) = true.
Proof.
  split; [reflexivity|]. split; [reflexivity|].
  exact (completed_iff_completed_at
           [Toggle (Scenario.click "T1"); Mount Scenario.online;
            Toggle (Scenario.click "T2")]
           Scenario.mounted (Scenario.click "T3") eq_refl eq_refl).
Defined.

Lemma one_record_per_pair_witness :
  unique_user_course (user_courses (db Scenario.A_behind)) = true
  /\ unique_user_course
       (user_courses (db (run [Toggle (Scenario.click "T2")] Scenario.A_behind))) = true
  /\ length (getRecord "u1" "c1"
               (db (run [Toggle (Scenario.click "T2")] Scenario.A_behind))) <= 1.
Proof.
  split; [reflexivity|].
  destruct (one_record_per_pair [Toggle (Scenario.click "T2")] Scenario.A_behind
              "u1" "c1" eq_refl) as (H1 & H2 & _).
  exact (conj H1 H2).
Defined.

(** ** The state machine *)

Lemma getRecord_owner p k d s :
  In s (getRecord p k d) -> UserCourse.user_id s = p /\ UserCourse.course_id s = k.
Proof.
  unfold getRecord. rewrite getRecord_filter. intro H.
  apply filter_In in H as [_ H]. unfold same_pair in H.
  apply andb_true_iff in H as [H1 H2].
  apply String.eqb_eq in H1, H2. auto.
Qed.

(** The store after the update a page in step with it sends. *)
Lemma update_tracked_record (u : User.t) k c at_ r s d :
  getRecord (User.id u) k d = [s] ->
  UserCourse.id r = UserCourse.id s ->
  getRecord (User.id u) k
    (update_user_course (Some (User.id u)) c at_ (UserCourse.id r) d)
  = [UserCourse.set_completion c at_ s].
Proof.
  intros Hs Hid.
  assert (Ho : UserCourse.user_id s = User.id u).
  { apply (getRecord_owner (User.id u) k d). rewrite Hs. left. reflexivity. }
  unfold getRecord in *. rewrite getRecord_filter in *.
  rewrite update_rows, filter_map_key by (intro; apply rewrite_row_pair).
  rewrite Hs. simpl. unfold rewrite_row, owns.
  rewrite Hid, Ho, !String.eqb_refl. reflexivity.
Qed.

(** C4, as the page does it.  When the page of a signed-in user is in step
    with the store (it holds a local record and the store holds the record
    of the pair, the same row with the same [completed]) and the request
    goes through, the toggle rewrites that record in place: from
    [completed = false] to [completed = true] with [completed_at] the first
    clock reading, state COMPLETED; from [completed = true] to
    [completed = false] with [completed_at] null, state IN_PROGRESS; its id,
    owner, course and creation time stay.  No row is added, rows with
    another id are untouched, and the page's local record is flipped
    likewise, with the second clock reading. *)
Theorem toggle_updates_record_in_place (e : ToggleEnv) (w : World) (u : User.t)
    (r s : UserCourse.t) :
  user w = Some u -> session w = Some u -> userCourse w = Some r ->
  getRecord (User.id u) (param_id w) (db w) = [s] ->
  UserCourse.id r = UserCourse.id s ->
  UserCourse.completed r = UserCourse.completed s ->
  net_ok e = true ->
  getRecord (User.id u) (param_id w) (db (Js.state (handleToggleComplete e w)))
  = [UserCourse.mk (UserCourse.id s) (UserCourse.user_id s) (UserCourse.course_id s)
       (negb (UserCourse.completed s))
       (if UserCourse.completed s then None else Some (now e))
       (UserCourse.created_at s)]
  /\ progress_state (User.id u) (param_id w) (db (Js.state (handleToggleComplete e w)))
     = (if UserCourse.completed s then IN_PROGRESS else COMPLETED)
  /\ length (user_courses (db (Js.state (handleToggleComplete e w))))
     = length (user_courses (db w))
  /\ (forall x, In x (user_courses (db w)) -> UserCourse.id x <> UserCourse.id s ->
                In x (user_courses (db (Js.state (handleToggleComplete e w)))))
  /\ Js.trace (handleToggleComplete e w)
     = [StoreCall (Update (negb (UserCourse.completed s))
                     (if UserCourse.completed s then None else Some (now e))
                     (UserCourse.id s)) None;
        Toast (if UserCourse.completed s then "Marked as incomplete"
               else "Congratulations!")
              (if UserCourse.completed s then "Course progress updated"
               else "You've completed this course!")
              (Some "default")]
  /\ userCourse (Js.state (handleToggleComplete e w))
     = Some (UserCourse.mk (UserCourse.id r) (UserCourse.user_id r)
               (UserCourse.course_id r)
               (negb (UserCourse.completed s))
               (if UserCourse.completed s then None else Some (now' e))
               (UserCourse.created_at r)).
Proof.
  intros Hu Hse Hr Hs Hid Hc Hn.
  rewrite (toggle_update_sent e w Hu Hr Hn). world_simpl.
  unfold auth_uid. rewrite Hse. cbn [option_map].
  assert (Hget := update_tracked_record u (param_id w)
                    (negb (UserCourse.completed r))
                    (if negb (UserCourse.completed r) then Some (now e) else None)
                    r (db w) Hs Hid).
  assert (Hat : (if negb (UserCourse.completed r) then Some (now e) else None)
                = (if UserCourse.completed s then None else Some (now e)))
    by (rewrite Hc; destruct (UserCourse.completed s); reflexivity).
  rewrite Hat in *. rewrite Hc in *. rewrite Hid in Hget |- *.
  split; [exact Hget|]. split.
  - unfold progress_state. rewrite Hget. simpl.
    destruct (UserCourse.completed s); reflexivity.
  - split; [rewrite update_rows; apply length_map|]. split.
    + intros x Hx Hne. rewrite update_rows. apply in_map_iff. exists x.
      split; [|exact Hx]. unfold rewrite_row.
      destruct (UserCourse.id x =? UserCourse.id s) eqn:E; [|reflexivity].
      apply String.eqb_eq in E. congruence.
    + split; [unfold success_toast; rewrite Hc; reflexivity|].
      unfold UserCourse.set_completion. rewrite <- Hid.
      destruct (UserCourse.completed s); reflexivity.
Qed.

Lemma toggle_updates_record_in_place_witness :
  progress_state "u1" "c1"
    (db (Js.state (handleToggleComplete (Scenario.click "T2") Scenario.B_completed)))
  = IN_PROGRESS
  /\ progress_state "u1" "c1"
       (db (Js.state (handleToggleComplete (Scenario.click "T3") Scenario.B_reopened)))
     = COMPLETED.
Proof.
  split.
  - exact (proj1 (proj2 (toggle_updates_record_in_place
      (Scenario.click "T2") Scenario.B_completed
      (u := Scenario.u1)
      (r := UserCourse.mk "row-T1" "u1" "c1" true (Some "T1") "T1db")
      (s := UserCourse.mk "row-T1" "u1" "c1" true (Some "T1") "T1db")
      eq_refl eq_refl eq_refl eq_refl eq_refl eq_refl eq_refl))).
  - exact (proj1 (proj2 (toggle_updates_record_in_place
      (Scenario.click "T3") Scenario.B_reopened
      (u := Scenario.u1)
      (r := UserCourse.mk "row-T1" "u1" "c1" false None "T1db")
      (s := UserCourse.mk "row-T1" "u1" "c1" false None "T1db")
      eq_refl eq_refl eq_refl eq_refl eq_refl eq_refl eq_refl))).
Defined.

(** C4 fails as stated.  The store holds the record with
    [completed = false], but tab A still shows it as completed.  A toggle in
    tab A goes through and shows its success toast, and the stored record
    is left at [completed = false] with no [completed_at], where the claim
    has it set to [completed = true] with [completed_at] the clock
    reading. *)
Lemma toggle_of_stale_page_leaves_record_incomplete :
  getRecord "u1" "c1" (db Scenario.A_stale)
  = [UserCourse.mk "row-T1" "u1" "c1" false None "T1db"]
  /\ toggled (Js.trace (handleToggleComplete (Scenario.click "T4") Scenario.A_stale))
     = true
  /\ getRecord "u1" "c1"
       (db (Js.state (handleToggleComplete (Scenario.click "T4") Scenario.A_stale)))
     = [UserCourse.mk "row-T1" "u1" "c1" false None "T1db"]
  /\ progress_state "u1" "c1"
       (db (Js.state (handleToggleComplete (Scenario.click "T4") Scenario.A_stale)))
     = IN_PROGRESS.
Proof.
  vm_compute. repeat split.
Qed.

(** A toggle that goes through, on a page in step with the store, leaves
    the page in step with the store on the flipped value. *)
Lemma tracks_toggle (u : User.t) (b : bool) (e : ToggleEnv) (w : World) :
  tracks u b w -> net_ok e = true ->
  tracks u (negb b) (step (Toggle e) w).
Proof.
  intros (Hu & Hse & r & s & Hr & Hs & Hid & Hcr & Hcs) Hn.
  unfold tracks. cbn [step]. rewrite toggle_param_id.
  rewrite (toggle_update_sent e w Hu Hr Hn). world_simpl.
  repeat split; [assumption..|].
  unfold auth_uid. rewrite Hse. cbn [option_map].
  eexists. eexists. split; [reflexivity|]. split.
  - apply update_tracked_record; eassumption.
  - simpl. rewrite Hcr. auto.
Qed.

(** The first toggle, from no record at all, creates it completed. *)
Lemma tracks_first_toggle (u : User.t) (e : ToggleEnv) (w : World) :
  user w = Some u -> session w = Some u -> userCourse w = None ->
  getRecord (User.id u) (param_id w) (db w) = [] ->
  existsb (fun k => Course.id k =? param_id w) (courses (db w)) = true ->
  net_ok e = true ->
  existsb (fun r => UserCourse.id r =? uuid e) (user_courses (db w)) = false ->
  tracks u true (step (Toggle e) w).
Proof.
  intros Hu Hse Hr Hs Hk Hn Hf.
  unfold getRecord in Hs. rewrite getRecord_filter in Hs.
  assert (Hi : insert_user_course (auth_uid w) (uuid e) (db_now e) (User.id u)
                 (param_id w) true (Some (now e)) (db w)
               = inr (UserCourse.mk (uuid e) (User.id u) (param_id w) true
                        (Some (now e)) (db_now e),
                      set_user_courses
                        (user_courses (db w)
                         ++ [UserCourse.mk (uuid e) (User.id u) (param_id w) true
                               (Some (now e)) (db_now e)]) (db w))).
  { unfold insert_user_course, auth_uid, owns. rewrite Hse. cbn [option_map UserCourse.user_id].
    rewrite String.eqb_refl, Hf, (filter_nil_existsb _ _ Hs), Hk. reflexivity. }
  unfold tracks. cbn [step]. rewrite toggle_param_id.
  rewrite (toggle_insert_done e w Hu Hr Hn Hi). world_simpl.
  repeat split; [assumption..|].
  eexists. eexists. split; [reflexivity|]. split.
  - unfold getRecord. rewrite getRecord_filter. cbn [user_courses set_user_courses].
    rewrite filter_app, Hs. cbn [filter app]. unfold same_pair.
    cbn [UserCourse.user_id UserCourse.course_id].
    rewrite !String.eqb_refl. reflexivity.
  - auto.
Qed.

Lemma toggles_cons e es w : toggles (e :: es) w = toggles es (step (Toggle e) w).
Proof. reflexivity. Qed.

Lemma tracks_toggles (u : User.t) (es : list ToggleEnv) :
  forall (b : bool) (w : World),
    tracks u b w -> forallb net_ok es = true ->
    tracks u (if Nat.odd (length es) then negb b else b) (toggles es w).
Proof.
  induction es as [|e es IH]; intros b w Ht Hn; [exact Ht|].
  cbn [forallb] in Hn. apply andb_true_iff in Hn as [Hn Hns].
  rewrite toggles_cons. cbn [length]. rewrite Nat.odd_succ, <- Nat.negb_odd.
  specialize (IH (negb b) (step (Toggle e) w) (tracks_toggle e Ht Hn) Hns).
  destruct (Nat.odd (length es)); cbn [negb] in *;
    [rewrite negb_involutive in IH|]; exact IH.
Qed.

Lemma toggles_param_id es : forall w, param_id (toggles es w) = param_id w.
Proof.
  induction es as [|e es IH]; intro w; [reflexivity|].
  rewrite toggles_cons, IH. apply toggle_param_id.
Qed.

(** C3, as the page does it.  From NOT_STARTED on a page that shows no
    record (signed in, with the session of its user, the store holding no
    record for the pair), a run of toggles that all go through leaves
    the record with [completed = true] after an odd number of them and with
    [completed = false] after an even number (no record at all after none),
    in the store and on the page alike. *)
Theorem toggle_parity (es : list ToggleEnv) (w : World) (u : User.t) :
  user w = Some u -> session w = Some u -> userCourse w = None ->
  progress_state (User.id u) (param_id w) (db w) = NOT_STARTED ->
  existsb (fun k => Course.id k =? param_id w) (courses (db w)) = true ->
  forallb (fun e => net_ok e
                    && negb (existsb (fun r => UserCourse.id r =? uuid e)
                               (user_courses (db w)))) es = true ->
  map UserCourse.completed (getRecord (User.id u) (param_id w) (db (toggles es w)))
  = match es with [] => [] | _ => [Nat.odd (length es)] end
  /\ progress_state (User.id u) (param_id w) (db (toggles es w))
     = (if Nat.odd (length es) then COMPLETED
        else match es with [] => NOT_STARTED | _ => IN_PROGRESS end)
  /\ option_map UserCourse.completed (userCourse (toggles es w))
     = match es with [] => None | _ => Some (Nat.odd (length es)) end.
Proof.
  intros Hu Hse Hr Hst Hk Hes.
  assert (Hs : getRecord (User.id u) (param_id w) (db w) = []).
  { unfold progress_state in Hst.
    destruct (getRecord (User.id u) (param_id w) (db w)) as [|x l]; [reflexivity|].
    destruct (UserCourse.completed x); discriminate. }
  destruct es as [|e es].
  - cbn. unfold progress_state. rewrite Hs, Hr. auto.
  - cbn [forallb] in Hes. apply andb_true_iff in Hes as [He Hes].
    apply andb_true_iff in He as [Hn Hf]. apply negb_true_iff in Hf.
    assert (Hns : forallb net_ok es = true).
    { rewrite forallb_forall in *. intros x Hx.
      specialize (Hes x Hx). apply andb_true_iff in Hes. tauto. }
    assert (Ht := tracks_toggles es
                    (tracks_first_toggle e w Hu Hse Hr Hs Hk Hn Hf) Hns).
    rewrite toggles_cons.
    destruct Ht as (_ & _ & r & s & Hr' & Hs' & _ & Hcr & Hcs).
    rewrite toggles_param_id, step_param_id in Hs'.
    cbn [length]. rewrite Nat.odd_succ, <- Nat.negb_odd.
    unfold progress_state. rewrite Hs', Hr'. cbn [map option_map].
    rewrite Hcr, Hcs.
    destruct (Nat.odd (length es)); cbn; auto.
Qed.

Lemma toggle_parity_witness :
  progress_state "u1" "c1"
    (db (toggles [Scenario.click "T1"; Scenario.click "T2"; Scenario.click "T3"]
           Scenario.mounted)) = COMPLETED
  /\ progress_state "u1" "c1"
       (db (toggles [Scenario.click "T1"; Scenario.click "T2"] Scenario.mounted))
     = IN_PROGRESS.
Proof.
  split.
  - exact (proj1 (proj2 (toggle_parity
      [Scenario.click "T1"; Scenario.click "T2"; Scenario.click "T3"]
      Scenario.mounted (u := Scenario.u1)
      eq_refl eq_refl eq_refl eq_refl eq_refl eq_refl))).
  - exact (proj1 (proj2 (toggle_parity
      [Scenario.click "T1"; Scenario.click "T2"]
      Scenario.mounted (u := Scenario.u1)
      eq_refl eq_refl eq_refl eq_refl eq_refl eq_refl))).
Defined.

(** C3 fails as stated.  A page on which [u1] completed the course sees the
    session move to [u2], for whom the store holds no record (NOT_STARTED);
    the page keeps [u1]'s record.  One toggle, and three toggles, each
    reaching its success toast, leave [u2] at NOT_STARTED: the updates they
    send address [u1]'s row, which the store hides from [u2]. *)
Lemma toggles_after_user_switch_stay_not_started :
  user Scenario2.B_switched = Some Scenario2.u2
  /\ session Scenario2.B_switched = Some Scenario2.u2
  /\ progress_state "u2" "c1" (db Scenario2.B_switched) = NOT_STARTED
  /\ toggled (Js.trace (handleToggleComplete (Scenario.click "T5") Scenario2.B_switched))
     = true
  /\ progress_state "u2" "c1"
       (db (toggles [Scenario.click "T5"] Scenario2.B_switched)) = NOT_STARTED
  /\ toggled (Js.trace (handleToggleComplete (Scenario.click "T7")
                 (toggles [Scenario.click "T5"; Scenario.click "T6"]
                    Scenario2.B_switched))) = true
  /\ progress_state "u2" "c1"
       (db (toggles [Scenario.click "T5"; Scenario.click "T6"; Scenario.click "T7"]
              Scenario2.B_switched)) = NOT_STARTED.
Proof.
  vm_compute. repeat split.
Qed.

End CourseDetailFacts.

(** ** The auth form *)

Module AuthFacts.
Import Auth.

Ltac run_form :=
  unfold handleSignUp, handleLogin, validateInputs, emailSchema_parse,
    passwordSchema_parse, supabase_auth_signUp, supabase_auth_signInWithPassword,
    setLoading, toast, navigate,
    Js.try_catch, Js.try_catch_finally, Js.bind, Js.gets, Js.modify, Js.emit,
    Js.ret, Js.throw.

(** What both handlers do on inputs the validation rejects. *)
Lemma rejected_run (is_email : string -> bool) (e : Env) (f : Form) :
  is_email (email f) = false \/ String.length (password f) < 6 ->
  let stop :=
    (inr tt, f,
     [PreventDefault;
      Toast "Validation Error"
        (if is_email (email f) then "Password must be at least 6 characters"
         else "Invalid email address")
        (Some "destructive")]) in
  handleSignUp is_email e f = stop /\ handleLogin is_email e f = stop.
Proof.
  intro H. run_form.
  destruct (is_email (email f)) eqn:He.
  - destruct H as [H|H]; [discriminate|].
    apply Nat.ltb_lt in H. rewrite H. cbn. auto.
  - cbn. auto.
Qed.

(** C9.  When the email fails the address test or the password has fewer
    than 6 characters, the sign-up handler and the login handler both stop
    after validation: the run consists of preventDefault and the
    "Validation Error" toast, no call to the identity provider is made, and
    the form state is unchanged. *)
Theorem invalid_inputs_not_submitted (is_email : string -> bool) (e : Env) (f : Form) :
  is_email (email f) = false \/ String.length (password f) < 6 ->
  filter is_provider_call (Js.trace (handleSignUp is_email e f)) = []
  /\ filter is_provider_call (Js.trace (handleLogin is_email e f)) = []
  /\ Js.state (handleSignUp is_email e f) = f
  /\ Js.state (handleLogin is_email e f) = f
  /\ Js.trace (handleSignUp is_email e f) = Js.trace (handleLogin is_email e f)
  /\ Js.trace (handleLogin is_email e f)
     = [PreventDefault;
        Toast "Validation Error"
          (if is_email (email f) then "Password must be at least 6 characters"
           else "Invalid email address")
          (Some "destructive")].
Proof.
  intro H. destruct (rejected_run is_email e f H) as [-> ->]. cbn. auto 7.
Qed.

Lemma invalid_inputs_not_submitted_witness :
  filter is_provider_call
    (Js.trace (handleSignUp Scenario.has_at_sign Scenario.provider_up
                 Scenario.short_password)) = []
  /\ filter is_provider_call
       (Js.trace (handleLogin Scenario.has_at_sign Scenario.provider_up
                    Scenario.short_password)) = [].
Proof.
  assert (H : Scenario.has_at_sign (email Scenario.short_password) = false
              \/ String.length (password Scenario.short_password) < 6)
    by (right; apply le_n).
  destruct (invalid_inputs_not_submitted Scenario.has_at_sign Scenario.provider_up
              Scenario.short_password H) as (H1 & H2 & _).
  exact (conj H1 H2).
Defined.

(** Inputs that pass validation are submitted, so the guard above is what
    keeps rejected inputs from the provider. *)
Lemma valid_inputs_submitted (is_email : string -> bool) (e : Env) (f : Form) :
  is_email (email f) = true -> 6 <= String.length (password f) ->
  filter is_provider_call (Js.trace (handleSignUp is_email e f))
  = [SignUp (trim (email f)) (password f) (origin e ++ "/")]
  /\ filter is_provider_call (Js.trace (handleLogin is_email e f))
     = [SignInWithPassword (trim (email f)) (password f)].
Proof.
  intros He Hp. run_form. rewrite He.
  apply Nat.ltb_ge in Hp. rewrite Hp. cbn.
  destruct (provider_error e); cbn; auto.
Qed.

End AuthFacts.

(* ===================================================================== *)
(** * Further properties *)

(** ** The table under the operations of the pages *)

Module TableFacts.
Import Schema CourseDetail CourseDetailView SchemaFacts CourseDetailFacts.

Lemma rewrite_row_identity auth_uid c at_ rid r :
  identity (rewrite_row auth_uid c at_ rid r) = identity r.
Proof. unfold rewrite_row. destruct (_ && _); reflexivity. Qed.

Lemma insert_checks auth_uid uuid now p k c at_ d row d' :
  insert_user_course auth_uid uuid now p k c at_ d = inr (row, d') ->
  existsb (fun r => UserCourse.id r =? uuid) (user_courses d) = false
  /\ existsb (fun x => Course.id x =? k) (courses d) = true
  /\ courses d' = courses d.
Proof.
  unfold insert_user_course.
  destruct (negb (owns auth_uid _)); [discriminate|].
  destruct (existsb (fun r => UserCourse.id r =? uuid) _); [discriminate|].
  destruct (existsb (same_pair p k) _); [discriminate|].
  destruct (existsb (fun x => Course.id x =? k) _); [|discriminate].
  intro H. injection H as <- <-. auto.
Qed.

(** One toggle: the identity columns of the rows it found are as they
    were, in the same order, followed by at most one new row; the catalog
    is untouched. *)
Lemma toggle_identity e w :
  exists added,
    map identity (user_courses (db (Js.state (handleToggleComplete e w))))
    = map identity (user_courses (db w)) ++ added
    /\ length added <= 1
    /\ courses (db (Js.state (handleToggleComplete e w))) = courses (db w).
Proof.
  destruct (toggle_db e w) as [-> | [(a & c & at_ & rid & -> & _)
                                    | (a & uuid & now & p & k & at_ & row & Hi & _)]].
  - exists []. rewrite app_nil_r. auto.
  - exists []. rewrite app_nil_r, update_rows, map_map.
    split; [|auto]. apply map_ext. intro r. apply rewrite_row_identity.
  - destruct (insert_checks _ _ _ _ _ _ _ _ Hi) as (_ & _ & Hc).
    apply insert_inv in Hi as (_ & Hd & _).
    exists [identity row]. rewrite Hd in *. cbn [user_courses set_user_courses].
    rewrite map_app. auto.
Qed.

Lemma step_identity o w :
  exists added,
    map identity (user_courses (db (step o w)))
    = map identity (user_courses (db w)) ++ added
    /\ length added <= 1
    /\ courses (db (step o w)) = courses (db w).
Proof.
  destruct o as [e|e|s|v e]; cbn [step].
  - destruct (fetchData_effect e w) as (-> & _). exists []. rewrite app_nil_r. auto.
  - apply toggle_identity.
  - destruct (onAuthStateChange_effect s w) as (-> & _).
    exists []. rewrite app_nil_r. auto.
  - destruct (toggle_identity e (set_db (db w) v)) as (added & H).
    exists added. exact H.
Qed.

(** X1.  The pages never delete a progress row and never change a row's
    id, owner, course or creation time: after any sequence of operations
    the table lists the rows it had, in their order and with these columns
    as they were, followed by the rows created since, at most one per
    operation.  The course catalog is never changed. *)
Theorem rows_are_never_deleted (ops : list Op) (w : World) :
  exists added,
    map identity (user_courses (db (run ops w)))
    = map identity (user_courses (db w)) ++ added
    /\ length added <= length ops
    /\ courses (db (run ops w)) = courses (db w).
Proof.
  revert w. induction ops as [|o ops IH]; intro w.
  - exists []. rewrite app_nil_r. auto.
  - rewrite run_cons.
    destruct (IH (step o w)) as (added2 & H2 & L2 & C2).
    destruct (step_identity o w) as (added1 & H1 & L1 & C1).
    exists (added1 ++ added2). rewrite H2, H1, app_assoc.
    split; [reflexivity|]. split; [|congruence].
    rewrite length_app. cbn [length]. lia.
Qed.

(** *** The primary key *)

Lemma primary_key_map (f : UserCourse.t -> UserCourse.t) rows :
  (forall r, UserCourse.id (f r) = UserCourse.id r) ->
  primary_key (map f rows) = primary_key rows.
Proof.
  intro Hk. induction rows as [|r rows IH]; cbn [map primary_key]; [reflexivity|].
  rewrite IH, Hk. f_equal. f_equal.
  apply existsb_map_key. intro a. rewrite Hk. reflexivity.
Qed.

Lemma primary_key_app_new rows new :
  primary_key rows = true ->
  existsb (fun r => UserCourse.id r =? UserCourse.id new) rows = false ->
  primary_key (rows ++ [new]) = true.
Proof.
  induction rows as [|r rows IH]; cbn [app primary_key existsb]; [reflexivity|].
  intros Hp Hn.
  apply andb_true_iff in Hp as [Hr Hp].
  apply orb_false_iff in Hn as [Hrn Hn].
  rewrite IH by assumption. rewrite andb_true_r.
  rewrite existsb_app. cbn [existsb]. rewrite orb_false_r.
  apply negb_true_iff in Hr. rewrite Hr. cbn [orb].
  rewrite String.eqb_sym, Hrn. reflexivity.
Qed.

Lemma toggle_primary_key e w :
  primary_key (user_courses (db w)) = true ->
  primary_key (user_courses (db (Js.state (handleToggleComplete e w)))) = true.
Proof.
  intro Hp.
  destruct (toggle_db e w) as [-> | [(a & c & at_ & rid & -> & _)
                                    | (a & uuid & now & p & k & at_ & row & Hi & _)]].
  - exact Hp.
  - rewrite update_rows, primary_key_map; [exact Hp|].
    intro r. apply rewrite_row_key.
  - destruct (insert_checks _ _ _ _ _ _ _ _ Hi) as (Hf & _).
    apply insert_inv in Hi as (Hrow & Hd & _).
    rewrite Hd. cbn [user_courses set_user_courses].
    apply primary_key_app_new; [exact Hp|]. rewrite Hrow. exact Hf.
Qed.

Lemma step_primary_key o w :
  primary_key (user_courses (db w)) = true ->
  primary_key (user_courses (db (step o w))) = true.
Proof.
  intro Hp. destruct o as [e|e|s|v e]; cbn [step].
  - destruct (fetchData_effect e w) as (-> & _). exact Hp.
  - apply toggle_primary_key. exact Hp.
  - destruct (onAuthStateChange_effect s w) as (-> & _). exact Hp.
  - world_simpl. apply toggle_primary_key. exact Hp.
Qed.

Lemma primary_key_filter_le_1 rid rows :
  primary_key rows = true ->
  length (filter (fun r => UserCourse.id r =? rid) rows) <= 1.
Proof.
  induction rows as [|r rows IH]; cbn [filter primary_key length]; [lia|].
  intro Hp. apply andb_true_iff in Hp as [Hr Hp]. specialize (IH Hp).
  destruct (UserCourse.id r =? rid) eqn:E; [|exact IH].
  apply String.eqb_eq in E. subst rid.
  apply negb_true_iff in Hr. rewrite (existsb_false_filter _ _ Hr). cbn. lia.
Qed.

(** X2.  Row ids stay distinct along every sequence of operations, so the
    [.eq("id", ...)] of the toggle's update addresses at most one row. *)
Theorem row_ids_stay_distinct (ops : list Op) (w : World) (rid : string) :
  primary_key (user_courses (db w)) = true ->
  primary_key (user_courses (db (run ops w))) = true
  /\ length (filter (fun r => UserCourse.id r =? rid)
               (user_courses (db (run ops w)))) <= 1.
Proof.
  revert w. induction ops as [|o ops IH]; intros w Hp.
  - split; [exact Hp|]. apply primary_key_filter_le_1. exact Hp.
  - rewrite run_cons. apply IH. apply step_primary_key. exact Hp.
Qed.

Lemma row_ids_stay_distinct_witness :
  primary_key (user_courses (db (run [Toggle (Scenario.click "T2");
                                      Elsewhere Scenario.mounted (Scenario.click "T3")]
                                   Scenario.A_behind))) = true
  /\ length (filter (fun r => UserCourse.id r =? "row-T1")
               (user_courses (db (run [Toggle (Scenario.click "T2");
                                       Elsewhere Scenario.mounted (Scenario.click "T3")]
                                    Scenario.A_behind)))) <= 1.
Proof.
  exact (row_ids_stay_distinct
           [Toggle (Scenario.click "T2");
            Elsewhere Scenario.mounted (Scenario.click "T3")]
           Scenario.A_behind "row-T1" eq_refl).
Defined.

(** *** The foreign key to the catalog *)

Lemma toggle_references e w :
  references_courses (db w) = true ->
  references_courses (db (Js.state (handleToggleComplete e w))) = true.
Proof.
  intro Hr. unfold references_courses in *.
  destruct (toggle_identity e w) as (_ & _ & _ & Hc). rewrite Hc.
  destruct (toggle_db e w) as [-> | [(a & c & at_ & rid & -> & _)
                                    | (a & uuid & now & p & k & at_ & row & Hi & _)]].
  - exact Hr.
  - rewrite update_rows. rewrite forallb_forall in *. intros x Hx.
    apply in_map_iff in Hx as (r & <- & Hin).
    destruct (rewrite_row_key a c at_ rid r) as (_ & -> & _). auto.
  - destruct (insert_checks _ _ _ _ _ _ _ _ Hi) as (_ & Hk & _).
    apply insert_inv in Hi as (Hrow & Hd & _).
    rewrite Hd. cbn [user_courses set_user_courses].
    rewrite forallb_app, Hr. cbn [forallb andb]. rewrite Hrow. cbn [UserCourse.course_id].
    rewrite Hk. reflexivity.
Qed.

Lemma step_references o w :
  references_courses (db w) = true ->
  references_courses (db (step o w)) = true.
Proof.
  intro Hp. destruct o as [e|e|s|v e]; cbn [step].
  - destruct (fetchData_effect e w) as (-> & _). exact Hp.
  - apply toggle_references. exact Hp.
  - destruct (onAuthStateChange_effect s w) as (-> & _). exact Hp.
  - world_simpl. apply (toggle_references e (set_db (db w) v)). exact Hp.
Qed.

(** X3.  Every progress row keeps pointing at a course of the catalog: if
    all rows reference an existing course, they still do after any sequence
    of operations. *)
Theorem progress_rows_reference_courses (ops : list Op) (w : World) :
  references_courses (db w) = true ->
  references_courses (db (run ops w)) = true.
Proof.
  revert w. induction ops as [|o ops IH]; intros w Hp; [exact Hp|].
  rewrite run_cons. apply IH. apply step_references. exact Hp.
Qed.

Lemma progress_rows_reference_courses_witness :
  references_courses
    (db (run [Toggle (Scenario.click "T1"); Toggle (Scenario.click "T2")]
           Scenario.mounted)) = true.
Proof.
  exact (progress_rows_reference_courses
           [Toggle (Scenario.click "T1"); Toggle (Scenario.click "T2")]
           Scenario.mounted eq_refl).
Defined.

End TableFacts.

(** ** What one toggle does to the table *)

Module StoreChangeFacts.
Import Schema CourseDetail CourseDetailView SchemaFacts CourseDetailFacts.





End StoreChangeFacts.

(** ** Who can touch which rows *)

Module IsolationFacts.
Import Schema CourseDetail CourseDetailView SchemaFacts CourseDetailFacts.

Lemma filter_map_fixed {A} (p : A -> bool) (f : A -> A) (l : list A) :
  (forall a, p (f a) = p a) -> (forall a, p a = true -> f a = a) ->
  filter p (map f l) = filter p l.
Proof.
  intros Hp Hf. induction l as [|a l IH]; cbn [map filter]; [reflexivity|].
  rewrite Hp, IH. destruct (p a) eqn:E; [rewrite (Hf a E)|]; reflexivity.
Qed.

Lemma owns_rewrite_row a c at_ rid r :
  owns a (rewrite_row a c at_ rid r) = owns a r.
Proof. unfold rewrite_row. destruct (_ && _); reflexivity. Qed.

(** X4.  A toggle never changes, adds or removes a row owned by anyone but
    the user of the session that sends it, whatever the page believes: the
    rows of the other principals are the same before and after. *)
Theorem toggle_leaves_foreign_rows (e : ToggleEnv) (w : World) :
  filter (fun r => negb (owns (auth_uid w) r))
         (user_courses (db (Js.state (handleToggleComplete e w))))
  = filter (fun r => negb (owns (auth_uid w) r)) (user_courses (db w)).
Proof.
  toggle_paths e w; world_simpl; try reflexivity.
  - rewrite update_rows. apply filter_map_fixed.
    + intro x. rewrite owns_rewrite_row. reflexivity.
    + intros x Hx. unfold rewrite_row. apply negb_true_iff in Hx.
      rewrite Hx, andb_false_r. reflexivity.
  - apply insert_inv in Hi as (_ & -> & Ho & _).
    cbn [user_courses set_user_courses]. rewrite filter_app.
    cbn [filter]. rewrite Ho. cbn [negb]. apply app_nil_r.
Qed.

(** *** The page's user and the session *)

Lemma fetchData_user e w :
  user (Js.state (fetchData e w)) = (if net_user e then session w else None)
  /\ session (Js.state (fetchData e w)) = session w
  /\ loading (Js.state (fetchData e w)) = false.
Proof.
  destruct w as [d s pid c u uc l up], e as [nu nc np].
  run_handler. cbn [net_user net_course net_progress].
  destruct nu; [destruct s as [cu|]|]; world_simpl;
    (destruct nc; world_simpl;
     [destruct (select_course pid d) as [|k [|k' l']]; world_simpl|]);
    auto;
    destruct np; world_simpl; cbn [option_map]; auto;
    match goal with
    | |- context [select_user_course ?a ?p ?k d] =>
        destruct (select_user_course a p k d) as [|r [|r' l'']]
    end; world_simpl; auto.
Qed.

Lemma toggle_frame e w :
  user (Js.state (handleToggleComplete e w)) = user w
  /\ session (Js.state (handleToggleComplete e w)) = session w
  /\ course (Js.state (handleToggleComplete e w)) = course w
  /\ loading (Js.state (handleToggleComplete e w)) = loading w
  /\ param_id (Js.state (handleToggleComplete e w)) = param_id w.
Proof. toggle_paths e w; world_simpl; auto. Qed.

Lemma step_user_has_session o w :
  user_has_session w -> user_has_session (step o w).
Proof.
  unfold user_has_session. intro H. destruct o as [e|e|s|v e]; cbn [step].
  - destruct (fetchData_user e w) as (-> & -> & _).
    destruct (net_user e); auto.
  - destruct (toggle_frame e w) as (-> & -> & _). exact H.
  - run_handler. auto.
  - exact H.
Qed.

Lemma run_user_has_session ops :
  forall w, user_has_session w -> user_has_session (run ops w).
Proof.
  induction ops as [|o ops IH]; intros w H; [exact H|].
  rewrite run_cons. apply IH. apply step_user_has_session. exact H.
Qed.

(** X5.  On a page whose user, if it shows one, is the user of its session
    (as after a mount or an auth event), this stays so along the page's
    operations, and then no request of a toggle is ever rejected by a
    row-level-security policy: the insert it sends names the session's own
    user. *)
Theorem toggle_is_never_forbidden (ops : list Op) (w : World) (e : ToggleEnv) :
  user_has_session w ->
  user_has_session (run ops w)
  /\ answered_forbidden (Js.trace (handleToggleComplete e (run ops w))) = false.
Proof.
  intro H0. assert (H := @run_user_has_session ops w H0).
  split; [exact H|]. revert H. generalize (run ops w). clear. intros w H.
  toggle_paths e w; try reflexivity.
  unfold answered_forbidden. cbn.
  destruct H as [H|H]; [congruence|].
  revert Hi. unfold insert_user_course, auth_uid, owns.
  rewrite <- H, Hu. cbn [option_map UserCourse.user_id].
  rewrite String.eqb_refl. cbn [negb].
  destruct (existsb _ _); [intro Hi; injection Hi as <-; reflexivity|].
  destruct (existsb _ _); [intro Hi; injection Hi as <-; reflexivity|].
  destruct (negb _); [intro Hi; injection Hi as <-; reflexivity|].
  discriminate.
Qed.

Lemma toggle_is_never_forbidden_witness :
  user_has_session
    (run [Mount Scenario.online; AuthChange (Some Scenario2.u2)]
       (Scenario.page (db Scenario.B_completed) (Some Scenario.u1)))
  /\ answered_forbidden
       (Js.trace (handleToggleComplete (Scenario.click "T4")
          (run [Mount Scenario.online; AuthChange (Some Scenario2.u2)]
             (Scenario.page (db Scenario.B_completed) (Some Scenario.u1))))) = false.
Proof.
  exact (@toggle_is_never_forbidden
           [Mount Scenario.online; AuthChange (Some Scenario2.u2)]
           (Scenario.page (db Scenario.B_completed) (Some Scenario.u1))
           (Scenario.click "T4") (or_introl eq_refl)).
Defined.

End IsolationFacts.

(** ** The mount effect of the course-detail page *)

Module MountFacts.
Import Schema CourseDetail CourseDetailView SchemaFacts CourseDetailFacts.

(** Opens [fetchData e w] on a world and an environment given by their
    fields. *)
Ltac fetch_start w e :=
  destruct w as [d s pid c u uc l up], e as [nu nc np];
  run_handler; cbn [net_user net_course net_progress] in *.

(** Walks the branches of an opened [fetchData] in program order. *)
Ltac fetch_cases d s pid nu nc np :=
  destruct nu; [destruct s as [?cu|]|]; world_simpl;
  (destruct nc; world_simpl;
   [destruct (select_course pid d) as [|?k [|?k' ?l']] eqn:?Hc; world_simpl|]);
  try (destruct np; world_simpl; cbn [option_map];
       try match goal with
           | |- context [select_user_course ?a ?p ?k d] =>
               destruct (select_user_course a p k d) as [|?r [|?r' ?l'']] eqn:?Hs
           end; world_simpl).

(** X6.  The mount effect only reads: it sends no write and leaves the
    store as it is, and it always ends with [loading = false].  It reports
    an error (toast, and a redirect to the home page) exactly when the
    course request fails; a failure of the sign-in check or of the progress
    request is silent. *)
Theorem mount_only_reads (e : FetchEnv) (w : World) :
  db (Js.state (fetchData e w)) = db w
  /\ writes (Js.trace (fetchData e w)) = []
  /\ loading (Js.state (fetchData e w)) = false
  /\ has_navigate (Js.trace (fetchData e w)) = has_toast (Js.trace (fetchData e w))
  /\ has_toast (Js.trace (fetchData e w))
     = match Js.result (supabase_select_course_single (net_course e) (param_id w) w) with
       | inr (_, Some _) => true
       | _ => false
       end.
Proof.
  fetch_start w e. fetch_cases d s pid nu nc np; cbn; auto.
Qed.

(** X7.  When the course request fails (the network is down, or no course
    has the id of the route), the mount effect shows the error in a toast
    and sends the user to the home page; it does not ask for the progress
    record, and the page's course and progress record stay as they were. *)
Theorem mount_without_course (e : FetchEnv) (w : World)
    (data : option Course.t) (err : StoreError) :
  Js.result (supabase_select_course_single (net_course e) (param_id w) w)
  = inr (data, Some err) ->
  Js.trace (fetchData e w)
  = [StoreCall GetUser (if net_user e then None else Some StoreUnavailable);
     StoreCall (SelectCourse (param_id w)) (Some err);
     Toast "Error" (message err) (Some "destructive");
     Navigate "/"]
  /\ course (Js.state (fetchData e w)) = course w
  /\ userCourse (Js.state (fetchData e w)) = userCourse w
  /\ loading (Js.state (fetchData e w)) = false.
Proof.
  fetch_start w e. intro H.
  fetch_cases d s pid nu nc np; cbn in H; try discriminate H;
    injection H as <- <-; cbn; auto.
Qed.

Lemma mount_without_course_witness :
  Js.trace (fetchData Scenario2.course_lost (Scenario.page Scenario.db0 (Some Scenario.u1)))
  = [StoreCall GetUser None;
     StoreCall (SelectCourse "c1") (Some StoreUnavailable);
     Toast "Error" (message StoreUnavailable) (Some "destructive");
     Navigate "/"]
  /\ course (Js.state (fetchData Scenario2.course_lost
                        (Scenario.page Scenario.db0 (Some Scenario.u1)))) = None
  /\ userCourse (Js.state (fetchData Scenario2.course_lost
                            (Scenario.page Scenario.db0 (Some Scenario.u1)))) = None
  /\ loading (Js.state (fetchData Scenario2.course_lost
                         (Scenario.page Scenario.db0 (Some Scenario.u1)))) = false.
Proof.
  exact (@mount_without_course Scenario2.course_lost
           (Scenario.page Scenario.db0 (Some Scenario.u1))
           None StoreUnavailable eq_refl).
Defined.

(** X8.  The mount effect assigns the page's progress record only after it
    found a current user and the course: then the record on the page is
    none, or a stored row owned by the session's user, for that user and
    the course of the route.  When it finds no current user, or the course
    request fails, the assignment is not reached and the page keeps the
    record it had, be it of an earlier route or user. *)
Theorem mount_assigns_only_own_record (e : FetchEnv) (w : World) :
  match (if net_user e then session w else None),
        Js.result (supabase_select_course_single (net_course e) (param_id w) w) with
  | Some cu, inr (_, None) =>
      match userCourse (Js.state (fetchData e w)) with
      | Some r =>
          In r (user_courses (db w))
          /\ owns (auth_uid w) r = true
          /\ UserCourse.user_id r = User.id cu
          /\ UserCourse.course_id r = param_id w
      | None => True
      end
  | _, _ => userCourse (Js.state (fetchData e w)) = userCourse w
  end.
Proof.
  fetch_start w e.
  fetch_cases d s pid nu nc np; cbn; auto.
  assert (Hin : In r (select_user_course (Some (User.id cu)) (User.id cu) pid d))
    by (rewrite Hs; left; reflexivity).
  apply filter_In in Hin as [Hin Hp].
  apply andb_true_iff in Hp as [Ho Hp]. unfold same_pair in Hp.
  apply andb_true_iff in Hp as [Hu Hk].
  apply String.eqb_eq in Hk, Hu. auto.
Qed.

End MountFacts.

(** ** Mount and toggle together *)

Module ReloadFacts.
Import Schema CourseDetail CourseDetailView SchemaFacts CourseDetailFacts MountFacts.

(** The mount of a signed-in page whose three requests go through. *)
Lemma mount_online e w u c :
  session w = Some u ->
  net_user e = true -> net_course e = true -> net_progress e = true ->
  select_course (param_id w) (db w) = [c] ->
  fetchData e w
  = (inr tt,
     set_loading false
       (set_userCourse
          (match getRecord (User.id u) (param_id w) (db w) with
           | [r] => Some r
           | _ => None
           end)
          (set_course (Some c) (set_user (Some u) w))),
     [StoreCall GetUser None;
      StoreCall (SelectCourse (param_id w)) None;
      StoreCall (SelectUserCourse (User.id u) (param_id w))
        (match getRecord (User.id u) (param_id w) (db w) with
         | _ :: _ :: _ => Some MultipleRows
         | _ => None
         end)]).
Proof.
  revert u c. fetch_start w e. intros u0 c0 Hse -> -> -> Hc. cbn in Hse, Hc. subst s.
  run_handler. rewrite Hc. world_simpl. cbn [option_map]. unfold getRecord.
  destruct (select_user_course _ _ _ _) as [|r [|r' l']]; reflexivity.
Qed.

(** X9.  A mount whose requests go through puts on the page exactly what
    the store holds for the signed-in user and the course of the route: the
    stored record, or none when there is none.  (The pair constraint is
    what makes "the" record well defined.) *)
Theorem mount_reads_back_the_store (e : FetchEnv) (w : World) (u : User.t)
    (c : Course.t) :
  session w = Some u ->
  net_user e = true -> net_course e = true -> net_progress e = true ->
  select_course (param_id w) (db w) = [c] ->
  unique_user_course (user_courses (db w)) = true ->
  userCourse (Js.state (fetchData e w))
  = hd_error (getRecord (User.id u) (param_id w) (db w))
  /\ user (Js.state (fetchData e w)) = Some u
  /\ course (Js.state (fetchData e w)) = Some c
  /\ has_toast (Js.trace (fetchData e w)) = false.
Proof.
  intros Hse Hu Hc Hp Hsel Huniq.
  rewrite (mount_online e w Hse Hu Hc Hp Hsel). world_simpl.
  assert (Hlen := unique_filter_le_1 (User.id u) (param_id w) _ Huniq).
  unfold getRecord in *. rewrite getRecord_filter in *.
  destruct (filter _ _) as [|r [|r' l']]; cbn in *; auto. lia.
Qed.

Lemma mount_reads_back_the_store_witness :
  userCourse (Js.state (fetchData Scenario.online Scenario.A_behind))
  = hd_error (getRecord "u1" "c1" (db Scenario.A_behind))
  /\ user (Js.state (fetchData Scenario.online Scenario.A_behind)) = Some Scenario.u1
  /\ course (Js.state (fetchData Scenario.online Scenario.A_behind)) = Some Scenario.c1
  /\ has_toast (Js.trace (fetchData Scenario.online Scenario.A_behind)) = false.
Proof.
  exact (@mount_reads_back_the_store Scenario.online Scenario.A_behind
           Scenario.u1 Scenario.c1 eq_refl eq_refl eq_refl eq_refl eq_refl eq_refl).
Defined.

Lemma mount_tracks e w u c s :
  session w = Some u ->
  net_user e = true -> net_course e = true -> net_progress e = true ->
  select_course (param_id w) (db w) = [c] ->
  getRecord (User.id u) (param_id w) (db w) = [s] ->
  tracks u (UserCourse.completed s) (step (Mount e) w).
Proof.
  intros Hse Hu Hc Hp Hsel Hs. unfold tracks. cbn [step].
  rewrite (mount_online e w Hse Hu Hc Hp Hsel). world_simpl. rewrite Hs.
  repeat split; [exact Hse|]. exists s, s. auto.
Qed.

(** X10.  Reloading repairs a page that is out of step: whatever the page
    showed before, after a mount whose requests go through, a toggle that
    goes through flips the record the store holds: a stored
    [completed = false] becomes COMPLETED, a stored [completed = true]
    becomes IN_PROGRESS, and the page shows the same. *)
Theorem reload_then_toggle_flips_the_store (fe : FetchEnv) (e : ToggleEnv)
    (w : World) (u : User.t) (c : Course.t) (s : UserCourse.t) :
  session w = Some u ->
  net_user fe = true -> net_course fe = true -> net_progress fe = true ->
  select_course (param_id w) (db w) = [c] ->
  getRecord (User.id u) (param_id w) (db w) = [s] ->
  net_ok e = true ->
  progress_state (User.id u) (param_id w) (db (run [Mount fe; Toggle e] w))
  = (if UserCourse.completed s then IN_PROGRESS else COMPLETED)
  /\ shows_completed (run [Mount fe; Toggle e] w) = negb (UserCourse.completed s).
Proof.
  intros Hse Hu Hc Hp Hsel Hs Hn.
  assert (Ht := tracks_toggle e (@mount_tracks fe w u c s Hse Hu Hc Hp Hsel Hs) Hn).
  change (run [Mount fe; Toggle e] w) with (step (Toggle e) (step (Mount fe) w)).
  destruct Ht as (_ & _ & r' & s' & Hr' & Hs' & _ & Hcr & Hcs).
  rewrite !step_param_id in Hs'.
  unfold progress_state, shows_completed. rewrite Hs', Hr', Hcs, Hcr.
  destruct (UserCourse.completed s); auto.
Qed.

Lemma reload_then_toggle_flips_the_store_witness :
  progress_state "u1" "c1"
    (db (run [Mount Scenario.online; Toggle (Scenario.click "T3")] Scenario.A_stale))
  = COMPLETED
  /\ shows_completed
       (run [Mount Scenario.online; Toggle (Scenario.click "T3")] Scenario.A_stale)
     = negb false.
Proof.
  exact (@reload_then_toggle_flips_the_store Scenario.online (Scenario.click "T3")
           Scenario.A_stale Scenario.u1 Scenario.c1
           (UserCourse.mk "row-T1" "u1" "c1" false None "T1db")
           eq_refl eq_refl eq_refl eq_refl eq_refl eq_refl eq_refl).
Defined.

(** X11.  A lost progress request goes unnoticed and leads to a refused
    toggle: when the sign-in check and the course request of a mount go
    through but the progress request fails, no error is shown and the page
    holds no record; if the store does hold one for the pair, the next
    toggle that reaches the store is answered with Conflict, shows the
    error toast, and changes nothing in the store. *)
Theorem lost_progress_request_ends_in_conflict (fe : FetchEnv) (e : ToggleEnv)
    (w : World) (u : User.t) (c : Course.t) :
  session w = Some u ->
  net_user fe = true -> net_course fe = true -> net_progress fe = false ->
  select_course (param_id w) (db w) = [c] ->
  getRecord (User.id u) (param_id w) (db w) <> [] ->
  net_ok e = true ->
  has_toast (Js.trace (fetchData fe w)) = false
  /\ userCourse (step (Mount fe) w) = None
  /\ (exists k,
        Js.trace (handleToggleComplete e (step (Mount fe) w))
        = [StoreCall (Insert (User.id u) (param_id w) true (Some (now e)))
             (Some (Conflict k));
           error_toast (Conflict k)])
  /\ db (step (Toggle e) (step (Mount fe) w)) = db w.
Proof.
  intros Hse Hu Hc Hp Hsel Hrec Hn.
  assert (Hm : fetchData fe w
               = (inr tt,
                  set_loading false
                    (set_userCourse None (set_course (Some c) (set_user (Some u) w))),
                  [StoreCall GetUser None;
                   StoreCall (SelectCourse (param_id w)) None;
                   StoreCall (SelectUserCourse (User.id u) (param_id w))
                     (Some StoreUnavailable)])).
  { revert Hse Hu Hc Hp Hsel. clear. revert u c. fetch_start w fe.
    intros u0 c0 Hse -> -> -> Hc. cbn in Hse, Hc. subst s.
    run_handler. rewrite Hc. reflexivity. }
  cbn [step]. rewrite Hm. world_simpl.
  split; [reflexivity|]. split; [reflexivity|].
  set (w1 := set_loading false _).
  assert (Hex : existsb (same_pair (User.id u) (param_id w)) (user_courses (db w)) = true).
  { unfold getRecord in Hrec. rewrite getRecord_filter in Hrec.
    destruct (existsb _ _) eqn:E; [reflexivity|].
    apply existsb_false_filter in E. contradiction. }
  assert (Hi : exists k,
    insert_user_course (auth_uid w1) (uuid e) (db_now e) (User.id u) (param_id w1)
      true (Some (now e)) (db w1) = inl (Conflict k)).
  { destruct (existsb (fun r => UserCourse.id r =? uuid e) (user_courses (db w)))
      eqn:Epk;
      [exists "user_courses_pkey" | exists "user_courses_user_id_course_id_key"];
      unfold w1, insert_user_course, auth_uid, owns; world_simpl;
      rewrite Hse; cbn [option_map UserCourse.user_id]; rewrite String.eqb_refl;
      cbn [negb]; rewrite Epk, ?Hex; reflexivity. }
  destruct Hi as (k & Hi).
  rewrite (toggle_insert_rejected e w1 (u:=u) eq_refl eq_refl Hn Hi).
  split; [exists k; reflexivity | reflexivity].
Qed.

Lemma lost_progress_request_ends_in_conflict_witness :
  has_toast (Js.trace (fetchData Scenario2.progress_lost
                         (Scenario.page (db Scenario.B_completed) (Some Scenario.u1))))
  = false
  /\ userCourse Scenario2.A_blind = None
  /\ (exists k,
        Js.trace (handleToggleComplete (Scenario.click "T5") Scenario2.A_blind)
        = [StoreCall (Insert "u1" "c1" true (Some "T5")) (Some (Conflict k));
           error_toast (Conflict k)])
  /\ db (step (Toggle (Scenario.click "T5")) Scenario2.A_blind)
     = db Scenario.B_completed.
Proof.
  refine (@lost_progress_request_ends_in_conflict Scenario2.progress_lost
            (Scenario.click "T5")
            (Scenario.page (db Scenario.B_completed) (Some Scenario.u1))
            Scenario.u1 Scenario.c1 eq_refl eq_refl eq_refl eq_refl eq_refl _ eq_refl).
  discriminate.
Defined.

End ReloadFacts.

(** ** Edges of the toggle *)

Module ToggleEdgeFacts.
Import Schema CourseDetail CourseDetailView SchemaFacts CourseDetailFacts.

(** X12.  A toggle touches nothing of the page but its progress record and
    its busy flag, and nothing of the backend but progress rows; and every
    run past the sign-in check ends with the button released
    ([updating = false]), whether the write went through or not. *)
Theorem toggle_releases_the_button (e : ToggleEnv) (w : World) :
  updating (Js.state (handleToggleComplete e w))
  = match user w with Some _ => false | None => updating w end
  /\ user (Js.state (handleToggleComplete e w)) = user w
  /\ session (Js.state (handleToggleComplete e w)) = session w
  /\ course (Js.state (handleToggleComplete e w)) = course w
  /\ loading (Js.state (handleToggleComplete e w)) = loading w
  /\ param_id (Js.state (handleToggleComplete e w)) = param_id w
  /\ courses (db (Js.state (handleToggleComplete e w))) = courses (db w).
Proof.
  toggle_paths e w; world_simpl; repeat split; auto.
  apply insert_inv in Hi as (_ & -> & _). reflexivity.
Qed.

(** X13.  An update that matches no row passes for a success.  When the
    page holds a record but the store has no row with its id that the
    session may update (the session moved to another user, or the row is
    gone), a toggle that reaches the store changes no row and gets no
    error: the success toast is shown and the page's record flips, while
    the store stays as it was. *)
Theorem toggle_on_hidden_row_reports_success (e : ToggleEnv) (w : World)
    (u : User.t) (r : UserCourse.t) :
  user w = Some u -> userCourse w = Some r -> net_ok e = true ->
  existsb (fun x => (UserCourse.id x =? UserCourse.id r) && owns (auth_uid w) x)
          (user_courses (db w)) = false ->
  user_courses (db (Js.state (handleToggleComplete e w))) = user_courses (db w)
  /\ toggled (Js.trace (handleToggleComplete e w)) = true
  /\ write_failed (Js.trace (handleToggleComplete e w)) = false
  /\ option_map UserCourse.completed (userCourse (Js.state (handleToggleComplete e w)))
     = Some (negb (UserCourse.completed r)).
Proof.
  intros Hu Hr Hn Hx.
  rewrite (toggle_update_sent e w Hu Hr Hn). world_simpl.
  split.
  - rewrite update_rows.
    rewrite <- (map_id (user_courses (db w))) at 2.
    apply map_ext_in. intros x Hin. unfold rewrite_row.
    destruct (_ && _) eqn:E; [|reflexivity].
    assert (existsb (fun x => (UserCourse.id x =? UserCourse.id r) && owns (auth_uid w) x)
              (user_courses (db w)) = true)
      by (apply existsb_exists; exists x; auto).
    congruence.
  - cbn. destruct (UserCourse.completed r); auto.
Qed.

Lemma toggle_on_hidden_row_reports_success_witness :
  user_courses (db (Js.state (handleToggleComplete (Scenario.click "T5")
                                Scenario2.B_switched)))
  = user_courses (db Scenario2.B_switched)
  /\ toggled (Js.trace (handleToggleComplete (Scenario.click "T5") Scenario2.B_switched))
     = true
  /\ write_failed (Js.trace (handleToggleComplete (Scenario.click "T5")
                               Scenario2.B_switched)) = false
  /\ option_map UserCourse.completed
       (userCourse (Js.state (handleToggleComplete (Scenario.click "T5")
                                Scenario2.B_switched)))
     = Some (negb true).
Proof.
  exact (@toggle_on_hidden_row_reports_success (Scenario.click "T5") Scenario2.B_switched
           Scenario2.u2 (UserCourse.mk "row-T1" "u1" "c1" true (Some "T1") "T1db")
           eq_refl eq_refl eq_refl eq_refl).
Defined.

(** X14.  The button says what the click will send.  When the page shows
    the progress controls with the button enabled, the one write of a
    toggle carries [completed = true] exactly when the label reads
    "Mark as Complete", and any toast of the run other than the error toast
    is the matching one. *)
Theorem button_label_announces_the_write (e : ToggleEnv) (w : World)
    (c : Course.t) (b : bool) (status label variant : string) :
  render w = Page c b (ProgressControls status label false variant) ->
  map (fun q => written_completed (fst q)) (writes (Js.trace (handleToggleComplete e w)))
  = [Some (label =? "Mark as Complete")]
  /\ forall t d v, In (Toast t d v) (Js.trace (handleToggleComplete e w)) ->
       t = "Error"
       \/ t = (if label =? "Mark as Complete" then "Congratulations!"
               else "Marked as incomplete").
Proof.
  unfold render, shows_completed.
  destruct (loading w); [discriminate|].
  destruct (course w); [|discriminate].
  toggle_paths e w; try discriminate; rewrite ?Hr;
    (destruct (updating w); [intro H; injection H; intros; discriminate|]);
    try (destruct (UserCourse.completed r) eqn:Ec);
    intro H; injection H as _ _ _ <- _; cbn; rewrite ?Ec; cbn;
    (split; [reflexivity|]);
    intros tt0 dd0 vv0 [Ht|[Ht|[]]]; try discriminate Ht;
    unfold success_toast, error_toast in Ht; rewrite ?Ec in Ht;
    injection Ht; intros; subst; auto.
Qed.

Lemma button_label_announces_the_write_witness :
  map (fun q => written_completed (fst q))
      (writes (Js.trace (handleToggleComplete (Scenario.click "T3") Scenario.A_stale)))
  = [Some ("Mark as Incomplete" =? "Mark as Complete")].
Proof.
  exact (proj1 (@button_label_announces_the_write (Scenario.click "T3") Scenario.A_stale
                  Scenario.c1 true "Completed" "Mark as Incomplete" "outline" eq_refl)).
Defined.

(** X15.  A first toggle on a course the catalog no longer holds is refused
    by the foreign key: for a signed-in user and a route whose ids are
    uuids in canonical form, the insert comes back with the foreign-key
    violation, the error toast shows it, and no row is created. *)
Theorem toggle_on_missing_course (e : ToggleEnv) (w : World) (u : User.t) :
  Uuid.canonical (User.id u) = true -> Uuid.canonical (param_id w) = true ->
  user w = Some u -> session w = Some u -> userCourse w = None ->
  net_ok e = true ->
  existsb (fun r => UserCourse.id r =? uuid e) (user_courses (db w)) = false ->
  getRecord (User.id u) (param_id w) (db w) = [] ->
  existsb (fun k => Course.id k =? param_id w) (courses (db w)) = false ->
  Js.trace (handleToggleComplete e w)
  = [StoreCall (Insert (User.id u) (param_id w) true (Some (now e)))
       (Some ForeignKeyViolation);
     error_toast ForeignKeyViolation]
  /\ db (Js.state (handleToggleComplete e w)) = db w
  /\ userCourse (Js.state (handleToggleComplete e w)) = None.
Proof.
  intros _ _ Hu Hse Hr Hn Hf Hs Hk.
  unfold getRecord in Hs. rewrite getRecord_filter in Hs.
  assert (Hi : insert_user_course (auth_uid w) (uuid e) (db_now e) (User.id u)
                 (param_id w) true (Some (now e)) (db w) = inl ForeignKeyViolation).
  { unfold insert_user_course, auth_uid, owns. rewrite Hse.
    cbn [option_map UserCourse.user_id].
    rewrite String.eqb_refl, Hf, (filter_nil_existsb _ _ Hs), Hk. reflexivity. }
  rewrite (toggle_insert_rejected e w Hu Hr Hn Hi). world_simpl. auto.
Qed.

Lemma toggle_on_missing_course_witness :
  render Scenario2.orphaned
  = Page Scenario2.withdrawn false
      (ProgressControls "Not Started" "Mark as Complete" false "default")
  /\ Js.trace (handleToggleComplete (Scenario2.click_uuid "T5") Scenario2.orphaned)
     = [StoreCall (Insert "6f1c2a9e-3b7d-4c15-9e0a-5d2b8c4f7a31"
                     "0b9d4e72-5a1f-4c3e-8f6b-2d7a9c1e4b58" true (Some "T5"))
          (Some ForeignKeyViolation);
        error_toast ForeignKeyViolation]
  /\ db (Js.state (handleToggleComplete (Scenario2.click_uuid "T5") Scenario2.orphaned))
     = db Scenario2.orphaned
  /\ userCourse (Js.state (handleToggleComplete (Scenario2.click_uuid "T5")
                             Scenario2.orphaned)) = None.
Proof.
  split; [reflexivity|].
  exact (@toggle_on_missing_course (Scenario2.click_uuid "T5") Scenario2.orphaned
           Scenario2.ann eq_refl eq_refl eq_refl eq_refl eq_refl eq_refl eq_refl
           eq_refl eq_refl).
Defined.

End ToggleEdgeFacts.

From Stdlib Require Import Permutation.

(** ** The course-list page *)

Module CourseListFacts.
Import Schema SchemaFacts.
Import CourseList.

Ltac run_list :=
  unfold fetchData, supabase_getUser, supabase_select_courses,
    supabase_select_user_courses, setCourses, setUserCourses, setUser, setLoading,
    toast, or_empty,
    Js.try_catch_finally, Js.bind, Js.gets, Js.modify, Js.emit, Js.ret, Js.throw;
  cbn [db session courses userCourses user loading
       set_courses set_userCourses set_user set_loading set_session
       net_user net_courses net_progress
       fst snd app Js.state Js.trace Js.result].

Ltac list_start w e :=
  destruct w as [d s cs ucs u l], e as [nu nc np]; run_list.

Ltac list_cases s nu nc np :=
  destruct nu; [destruct s as [?cu|]|]; destruct nc; try destruct np;
  run_list.

(** X16.  The list page only reads, always ends with [loading = false], and
    shows the error toast exactly when a table request failed: the courses
    request, or, for a signed-in user, the progress request.  A failed
    sign-in check is silent.  When the courses request fails, the progress
    request is not sent. *)
Theorem list_reports_table_errors (newer : string -> string -> bool)
    (e : FetchEnv) (w : World) :
  db (Js.state (fetchData newer e w)) = db w
  /\ loading (Js.state (fetchData newer e w)) = false
  /\ has_toast (Js.trace (fetchData newer e w))
     = (negb (net_courses e)
        || match (if net_user e then session w else None) with
           | Some _ => negb (net_progress e)
           | None => false
           end)
  /\ (net_courses e = false ->
      courses (Js.state (fetchData newer e w)) = courses w
      /\ userCourses (Js.state (fetchData newer e w)) = userCourses w
      /\ forall uid err, ~ In (StoreCall (SelectUserCourses uid) err)
                            (Js.trace (fetchData newer e w))).
Proof.
  list_start w e.
  list_cases s nu nc np; cbn;
    (split; [reflexivity|]); (split; [reflexivity|]); (split; [reflexivity|]);
    intro Hnc; try discriminate Hnc;
    (split; [reflexivity|]); (split; [reflexivity|]);
    intros uid err Hin;
    repeat (destruct Hin as [Hin|Hin]; [discriminate Hin|]); exact Hin.
Qed.

(** *** The cards *)

Lemma insert_desc_perm newer c l : Permutation (insert_desc newer c l) (c :: l).
Proof.
  induction l as [|x l IH]; cbn [insert_desc]; [reflexivity|].
  destruct (newer _ _); [reflexivity|].
  rewrite IH. apply perm_swap.
Qed.

Lemma select_courses_desc_perm newer d :
  Permutation (select_courses_desc newer d) (Schema.courses d).
Proof.
  unfold select_courses_desc.
  induction (Schema.courses d) as [|c l IH]; cbn [fold_right]; [reflexivity|].
  rewrite insert_desc_perm, IH. reflexivity.
Qed.

Lemma fetch_courses newer e w :
  net_courses e = true ->
  courses (Js.state (fetchData newer e w)) = select_courses_desc newer (db w)
  /\ loading (Js.state (fetchData newer e w)) = false.
Proof.
  list_start w e. intros ->. list_cases s nu true np; auto.
Qed.

(** X17.  Once the courses request went through, the list page shows the
    cards of the catalog and nothing else: the grid is, up to order, one
    card per course, each built from that one course (its link to the
    course's detail route, its title, description, thumbnail and duration,
    and the badge [isCompleted] gives its id), whoever is signed in and
    whatever became of the other requests; the "no courses" message shows
    exactly when the catalog is empty. *)
Theorem list_shows_the_catalog (newer : string -> string -> bool)
    (e : FetchEnv) (w : World) :
  net_courses e = true ->
  exists cards,
    render (Js.state (fetchData newer e w))
    = (Cards cards, Nat.eqb (length (Schema.courses (db w))) 0)
    /\ Permutation cards
         (map (fun c =>
                 mkCard ("/course/" ++ Course.id c)%string (Course.title c)
                   (Course.description c) (Course.thumbnail c) (Course.duration c)
                   (isCompleted (Js.state (fetchData newer e w)) (Course.id c)))
              (Schema.courses (db w))).
Proof.
  intro Hn. destruct (fetch_courses newer e w Hn) as (Hc & Hl).
  unfold render. rewrite Hl, Hc. cbn [negb andb].
  eexists. split.
  - f_equal. f_equal. apply Permutation_length. apply select_courses_desc_perm.
  - unfold CourseCard. apply Permutation_map. apply select_courses_desc_perm.
Qed.

Lemma list_shows_the_catalog_witness :
  exists cards,
    render (Js.state (fetchData Scenario2.iso_newer Scenario2.list_online
                        (Scenario2.list_page Scenario2.catalog (Some Scenario.u1))))
    = (Cards cards, Nat.eqb (length (Schema.courses Scenario2.catalog)) 0)
    /\ Permutation cards
         [mkCard "/course/c1" "Introduction to Web Development" "Learn the basics"
            None 180 true;
          mkCard "/course/c2" "Python Programming Masterclass" "Master Python"
            None 240 false].
Proof.
  exact (@list_shows_the_catalog Scenario2.iso_newer Scenario2.list_online
           (Scenario2.list_page Scenario2.catalog (Some Scenario.u1)) eq_refl).
Defined.

(** *** The badges *)

Lemma own_rows_completed (p k : string) rows :
  existsb (fun uc => (UserCourse.course_id uc =? k) && UserCourse.completed uc)
          (filter (fun r => owns (Some p) r && (UserCourse.user_id r =? p)) rows)
  = existsb UserCourse.completed (filter (same_pair p k) rows).
Proof.
  induction rows as [|r rows IH]; cbn [filter existsb]; [reflexivity|].
  unfold owns at 1, same_pair at 1.
  rewrite (String.eqb_sym p (UserCourse.user_id r)).
  destruct (UserCourse.user_id r =? p); cbn [andb]; [|exact IH].
  destruct (UserCourse.course_id r =? k) eqn:Ek; cbn [existsb];
    rewrite Ek, IH; reflexivity.
Qed.

Lemma fetch_progress newer e w u :
  session w = Some u ->
  net_user e = true -> net_courses e = true -> net_progress e = true ->
  userCourses (Js.state (fetchData newer e w))
  = select_user_courses (Some (User.id u)) (User.id u) (db w).
Proof.
  revert u. list_start w e. intros u0 Hs -> -> ->. cbn in Hs. subst s.
  run_list. reflexivity.
Qed.

Lemma pair_completed p k rows :
  unique_user_course rows = true ->
  existsb UserCourse.completed (filter (same_pair p k) rows)
  = match filter (same_pair p k) rows with
    | r :: _ => UserCourse.completed r
    | [] => false
    end.
Proof.
  intro Hu. assert (Hl := unique_filter_le_1 p k rows Hu).
  destruct (filter _ _) as [|r [|r' l]]; cbn in *; [reflexivity| |lia].
  apply orb_false_r.
Qed.

(** X18.  The badge of a card tells the truth of the store: after a fetch
    whose requests went through for a signed-in user, a course carries the
    completion badge exactly when the store holds that user's record for
    it with [completed = true] (state COMPLETED). *)
Theorem list_badge_matches_the_store (newer : string -> string -> bool)
    (e : FetchEnv) (w : World) (u : User.t) (courseId : string) :
  session w = Some u ->
  net_user e = true -> net_courses e = true -> net_progress e = true ->
  unique_user_course (user_courses (db w)) = true ->
  isCompleted (Js.state (fetchData newer e w)) courseId
  = match CourseDetail.progress_state (User.id u) courseId (db w) with
    | CourseDetail.COMPLETED => true
    | _ => false
    end.
Proof.
  intros Hs Hu Hc Hp Huniq. unfold isCompleted.
  rewrite (fetch_progress newer e w Hs Hu Hc Hp).
  unfold select_user_courses. rewrite own_rows_completed.
  rewrite (pair_completed (User.id u) courseId _ Huniq).
  unfold CourseDetail.progress_state, CourseDetail.getRecord.
  rewrite getRecord_filter.
  destruct (filter _ _) as [|r l]; [reflexivity|].
  destruct (UserCourse.completed r); reflexivity.
Qed.

Lemma list_badge_matches_the_store_witness :
  isCompleted (Js.state (fetchData Scenario2.iso_newer Scenario2.list_online
                           (Scenario2.list_page Scenario2.catalog (Some Scenario.u1))))
    "c1"
  = match CourseDetail.progress_state "u1" "c1" Scenario2.catalog with
    | CourseDetail.COMPLETED => true
    | _ => false
    end.
Proof.
  exact (@list_badge_matches_the_store Scenario2.iso_newer Scenario2.list_online
           (Scenario2.list_page Scenario2.catalog (Some Scenario.u1))
           Scenario.u1 "c1" eq_refl eq_refl eq_refl eq_refl eq_refl).
Defined.

End CourseListFacts.

(** ** List page and detail page on one store *)

Module AgreementFacts.
Import Schema SchemaFacts CourseDetailFacts.

(** X19.  The two pages agree.  For one signed-in user and one store, once
    the requests of both pages went through, the badge the list page puts
    on a course is the "completed" the detail page of that course shows. *)
Theorem list_badge_agrees_with_detail_page (newer : string -> string -> bool)
    (le : CourseList.FetchEnv) (lw : CourseList.World)
    (de : CourseDetail.FetchEnv) (dw : CourseDetail.World)
    (u : User.t) (c : Course.t) :
  CourseList.session lw = Some u -> CourseDetail.session dw = Some u ->
  CourseList.db lw = CourseDetail.db dw ->
  CourseList.net_user le = true -> CourseList.net_courses le = true ->
  CourseList.net_progress le = true ->
  CourseDetail.net_user de = true -> CourseDetail.net_course de = true ->
  CourseDetail.net_progress de = true ->
  select_course (CourseDetail.param_id dw) (CourseDetail.db dw) = [c] ->
  unique_user_course (user_courses (CourseDetail.db dw)) = true ->
  CourseList.isCompleted (Js.state (CourseList.fetchData newer le lw))
    (CourseDetail.param_id dw)
  = CourseDetailView.shows_completed (Js.state (CourseDetail.fetchData de dw)).
Proof.
  intros Hls Hds Hdb Hlu Hlc Hlp Hdu Hdc Hdp Hsel Huniq.
  unfold CourseList.isCompleted, CourseDetailView.shows_completed.
  rewrite (CourseListFacts.fetch_progress newer le lw Hls Hlu Hlc Hlp).
  rewrite (ReloadFacts.mount_online de dw Hds Hdu Hdc Hdp Hsel).
  cbn [Js.state fst snd CourseDetail.userCourse CourseDetail.set_loading
       CourseDetail.set_userCourse].
  unfold CourseList.select_user_courses. rewrite CourseListFacts.own_rows_completed.
  rewrite Hdb, (CourseListFacts.pair_completed (User.id u) _ _ Huniq).
  unfold CourseDetail.getRecord. rewrite getRecord_filter.
  assert (Hl := unique_filter_le_1 (User.id u) (CourseDetail.param_id dw) _ Huniq).
  destruct (filter _ _) as [|r [|r' l]]; cbn in *; [reflexivity|reflexivity|lia].
Qed.

Lemma list_badge_agrees_with_detail_page_witness :
  CourseList.isCompleted
    (Js.state (CourseList.fetchData Scenario2.iso_newer Scenario2.list_online
                 (Scenario2.list_page (CourseDetail.db Scenario.B_completed)
                    (Some Scenario.u1))))
    "c1"
  = CourseDetailView.shows_completed
      (Js.state (CourseDetail.fetchData Scenario.online Scenario.A_behind)).
Proof.
  exact (@list_badge_agrees_with_detail_page Scenario2.iso_newer
           Scenario2.list_online
           (Scenario2.list_page (CourseDetail.db Scenario.B_completed) (Some Scenario.u1))
           Scenario.online Scenario.A_behind Scenario.u1 Scenario.c1
           eq_refl eq_refl eq_refl eq_refl eq_refl eq_refl eq_refl eq_refl eq_refl
           eq_refl eq_refl).
Defined.

End AgreementFacts.

(** ** The route guard, the navigation bar *)

Module GuardFacts.
Import ProtectedRoute.

Lemma step_settles o w :
  loading (step o w) = false
  /\ (user (step o w) = None \/ user (step o w) = session (step o w)).
Proof.
  destruct o as [net|s]; cbn; [destruct net|]; auto.
Qed.

Lemma run_settles ops : forall o w,
  loading (run (o :: ops) w) = false
  /\ (user (run (o :: ops) w) = None
      \/ user (run (o :: ops) w) = session (run (o :: ops) w)).
Proof.
  induction ops as [|o' ops IH]; intros o w.
  - apply step_settles.
  - change (run (o :: o' :: ops) w) with (run (o' :: ops) (step o w)). apply IH.
Qed.

(** X20.  Once its sign-in check has run or an auth event has arrived, the
    guard never shows the skeleton again; it lets the protected page
    through only while the session has a user, the one it holds; and with
    no session it redirects to the sign-in page. *)
Theorem guard_lets_through_only_a_session (o : Op) (ops : list Op)
    (s : option User.t) :
  render (run (o :: ops) (initial s)) <> Skeletons
  /\ (render (run (o :: ops) (initial s)) = Children ->
      exists u, session (run (o :: ops) (initial s)) = Some u
                /\ user (run (o :: ops) (initial s)) = Some u)
  /\ (session (run (o :: ops) (initial s)) = None ->
      render (run (o :: ops) (initial s)) = Redirect "/auth").
Proof.
  destruct (run_settles ops o (initial s)) as (Hl & Hu).
  unfold render. rewrite Hl.
  destruct (user (run (o :: ops) (initial s))) as [u|] eqn:E.
  - destruct Hu as [Hu|Hu]; [discriminate|].
    split; [discriminate|]. split; [eauto|]. congruence.
  - split; [discriminate|]. split; [discriminate|reflexivity].
Qed.

End GuardFacts.

Module NavbarFacts.
Import Navbar.

(** X21.  Logging out locks the pages.  When the provider accepts the
    sign-out, the bar navigates home without a toast and the session is
    gone; once the pages hear of it, the route guard redirects to the
    sign-in page and a toggle on the detail page sends nothing to the
    store.  When the provider answers with an error, the user stays signed
    in and sees a fixed message, not the provider's. *)
Theorem logout_locks_the_pages (failure : option string) (bar : World)
    (guard : ProtectedRoute.World) (page : CourseDetail.World)
    (e : CourseDetail.ToggleEnv) :
  match failure with
  | None =>
      session (Js.state (handleLogout failure bar)) = None
      /\ Js.trace (handleLogout failure bar) = [SignOut; Navigate "/"]
      /\ ProtectedRoute.render
           (ProtectedRoute.step
              (ProtectedRoute.AuthEvent (session (Js.state (handleLogout failure bar))))
              guard)
         = ProtectedRoute.Redirect "/auth"
      /\ CourseDetail.store_calls
           (Js.trace (CourseDetail.handleToggleComplete e
              (CourseDetail.step
                 (CourseDetail.AuthChange (session (Js.state (handleLogout failure bar))))
                 page))) = []
      /\ CourseDetail.db
           (Js.state (CourseDetail.handleToggleComplete e
              (CourseDetail.step
                 (CourseDetail.AuthChange (session (Js.state (handleLogout failure bar))))
                 page)))
         = CourseDetail.db page
  | Some _ =>
      session (Js.state (handleLogout failure bar)) = session bar
      /\ Js.trace (handleLogout failure bar)
         = [SignOut; Toast "Error" "Failed to log out. Please try again."
                       (Some "destructive")]
  end.
Proof.
  destruct failure as [msg|]; cbn; [auto|].
  repeat split.
  all: rewrite (CourseDetailFacts.toggle_anonymous e _ eq_refl); reflexivity.
Qed.

(** X22.  The theme button settles on dark and light: after one click the
    theme is "dark" or "light" (it is "light" exactly when it was "dark"),
    two further clicks bring that theme back, and a theme that was neither,
    such as the initial "system", is never restored. *)
Theorem theme_toggle_settles (w : World) :
  (theme (Js.state (toggleTheme w)) = Some "dark"
   \/ theme (Js.state (toggleTheme w)) = Some "light")
  /\ (theme (Js.state (toggleTheme w)) = Some "light" <-> theme w = Some "dark")
  /\ theme (Js.state (toggleTheme (Js.state (toggleTheme (Js.state (toggleTheme w))))))
     = theme (Js.state (toggleTheme w))
  /\ session (Js.state (toggleTheme w)) = session w.
Proof.
  destruct w as [s [t|]]; cbn.
  - destruct (t =? "dark") eqn:E; cbn.
    + apply String.eqb_eq in E. subst t. repeat split; auto.
    + repeat split; auto; try discriminate.
      intro H. injection H as ->. discriminate E.
  - repeat split; auto; discriminate.
Qed.

End NavbarFacts.

(** ** Submissions of the auth form *)

Module SubmitFacts.
Import Auth Text AuthFacts.

(** X23.  [validateInputs] accepts exactly the inputs whose email passes
    the address test and whose password has at least 6 code units; it
    never changes the form; it is silent when it accepts and shows one
    "Validation Error" toast when it rejects, naming the email rule if the
    email fails (whatever the password) and the password rule otherwise. *)
Theorem validateInputs_accepts_exactly (is_email : string -> bool) (f : Form) :
  Js.result (validateInputs is_email f)
  = inr (is_email (email f) && Nat.leb 6 (String.length (password f)))
  /\ Js.state (validateInputs is_email f) = f
  /\ Js.trace (validateInputs is_email f)
     = (if is_email (email f)
        then if Nat.leb 6 (String.length (password f)) then []
             else [Toast "Validation Error" "Password must be at least 6 characters"
                     (Some "destructive")]
        else [Toast "Validation Error" "Invalid email address" (Some "destructive")]).
Proof.
  run_form. destruct (is_email (email f)); cbn; [|auto].
  destruct (String.length (password f)) as [|[|[|[|[|[|n]]]]]]; cbn; auto.
Qed.

(** *** What [trim] leaves *)

Lemma trim_start_clean s : starts_with_space (trim_start s) = false.
Proof.
  induction s as [|c s IH]; cbn [trim_start]; [reflexivity|].
  destruct (is_space c) eqn:E; [exact IH | exact E].
Qed.

Lemma trim_end_clean s : ends_with_space (trim_end s) = false.
Proof.
  induction s as [|c s IH]; cbn [trim_end]; [reflexivity|].
  destruct (trim_end s) as [|c' t] eqn:E.
  - destruct (is_space c) eqn:Ec; cbn; auto.
  - exact IH.
Qed.

Lemma trim_end_keeps_start s :
  starts_with_space s = false -> starts_with_space (trim_end s) = false.
Proof.
  destruct s as [|c s]; cbn [trim_end starts_with_space]; [reflexivity|].
  intro Hc. destruct (trim_end s); [|exact Hc].
  rewrite Hc. exact Hc.
Qed.

Lemma trim_clean s :
  starts_with_space (trim s) = false /\ ends_with_space (trim s) = false.
Proof.
  unfold trim. split.
  - apply trim_end_keeps_start, trim_start_clean.
  - apply trim_end_clean.
Qed.

(** X24.  A sign-up with inputs that pass validation makes one call to the
    identity provider, with the email stripped of the white space around it
    (none is left at either end), the password as typed, and the redirect
    target "origin/"; the outcome is one toast, "Success!" or
    "Sign up failed" with the provider's message; it never navigates, and
    the form ends with [loading = false] and its fields as typed. *)
Theorem sign_up_submits_trimmed_email (is_email : string -> bool) (e : Env)
    (f : Form) :
  is_email (email f) = true -> 6 <= String.length (password f) ->
  Js.trace (handleSignUp is_email e f)
  = [PreventDefault;
     SignUp (trim (email f)) (password f) (origin e ++ "/")%string;
     match provider_error e with
     | Some msg => Toast "Sign up failed" msg (Some "destructive")
     | None => Toast "Success!" "Account created successfully. You can now log in." None
     end]
  /\ starts_with_space (trim (email f)) = false
  /\ ends_with_space (trim (email f)) = false
  /\ Js.state (handleSignUp is_email e f) = mkForm false (email f) (password f).
Proof.
  intros He Hp. run_form. rewrite He.
  apply Nat.ltb_ge in Hp. rewrite Hp. cbn.
  destruct (trim_clean (email f)) as (H1 & H2).
  destruct (provider_error e); cbn; auto.
Qed.

Lemma sign_up_submits_trimmed_email_witness :
  Js.trace (handleSignUp Scenario.has_at_sign Scenario.provider_up Scenario2.valid_form)
  = [PreventDefault;
     SignUp (trim " ann@example.com ") "secret" "https://learnhub.example/";
     Toast "Success!" "Account created successfully. You can now log in." None]
  /\ starts_with_space (trim " ann@example.com ") = false
  /\ ends_with_space (trim " ann@example.com ") = false
  /\ Js.state (handleSignUp Scenario.has_at_sign Scenario.provider_up Scenario2.valid_form)
     = mkForm false " ann@example.com " "secret".
Proof.
  exact (@sign_up_submits_trimmed_email Scenario.has_at_sign Scenario.provider_up
           Scenario2.valid_form eq_refl (le_n 6)).
Defined.

(** X25.  A login with inputs that pass validation makes one call to the
    identity provider with the trimmed email and the password as typed;
    when the provider accepts, the only effect is the navigation to the
    course list; when it refuses, the only effect is the "Login failed"
    toast with the provider's message, and the user stays on the form.
    Either way the form ends with [loading = false]. *)
Theorem login_navigates_only_on_success (is_email : string -> bool) (e : Env)
    (f : Form) :
  is_email (email f) = true -> 6 <= String.length (password f) ->
  Js.trace (handleLogin is_email e f)
  = [PreventDefault;
     SignInWithPassword (trim (email f)) (password f);
     match provider_error e with
     | Some msg => Toast "Login failed" msg (Some "destructive")
     | None => Navigate "/courses"
     end]
  /\ Js.state (handleLogin is_email e f) = mkForm false (email f) (password f).
Proof.
  intros He Hp. run_form. rewrite He.
  apply Nat.ltb_ge in Hp. rewrite Hp. cbn.
  destruct (provider_error e); cbn; auto.
Qed.

Lemma login_navigates_only_on_success_witness :
  Js.trace (handleLogin Scenario.has_at_sign
              (mkEnv (Some "Invalid login credentials") "https://learnhub.example")
              Scenario2.valid_form)
  = [PreventDefault;
     SignInWithPassword (trim " ann@example.com ") "secret";
     Toast "Login failed" "Invalid login credentials" (Some "destructive")]
  /\ Js.state (handleLogin Scenario.has_at_sign
                 (mkEnv (Some "Invalid login credentials") "https://learnhub.example")
                 Scenario2.valid_form)
     = mkForm false " ann@example.com " "secret".
Proof.
  exact (@login_navigates_only_on_success Scenario.has_at_sign
           (mkEnv (Some "Invalid login credentials") "https://learnhub.example")
           Scenario2.valid_form eq_refl (le_n 6)).
Defined.

End SubmitFacts.
